(** * The GSU importer: case matching and docket-entry selection

    A shallow embedding of
    [cl/corpus_importer/management/commands/georgia_state_university.py]:
    [make_party_q], [lookup_row], [filter_des] and the entry-selection step
    of [download_documents], together with the pieces of Python and of the
    Django query layer they rely on (string methods, list slices,
    [datetime.strptime], [Q] objects, [filter]/[exclude]/[order_by]/[count]).

    Python strings are byte strings ([string] of 8-bit [ascii]); a Python
    function that can raise returns an [outcome]; logging and the queries
    sent to the IDB table are recorded in a trace of [event]s. *)

From Stdlib Require Import String Ascii List ZArith Lia Bool Permutation.
From stdpp Require Import gmap strings.
Import ListNotations.

Open Scope string_scope.
Open Scope Z_scope.

(** ** Python byte strings *)

Module Py.

(** [str.lower]: only the letters A..Z change. *)
Definition lower_char (c : ascii) : ascii :=
  let n := nat_of_ascii c in
  if ((65 <=? n) && (n <=? 90))%nat then ascii_of_nat (n + 32) else c.

Fixpoint lower (s : string) : string :=
  match s with
  | EmptyString => EmptyString
  | String c s' => String (lower_char c) (lower s')
  end.

(** The characters [str.split()] cuts at: space, \t, \n, \v, \f, \r. *)
Definition isspace (c : ascii) : bool :=
  let n := nat_of_ascii c in
  ((n =? 32) || ((9 <=? n) && (n <=? 13)))%nat.

(** [s.split()]: the maximal runs of non-whitespace characters. *)
Fixpoint split (s : string) : list string :=
  match s with
  | EmptyString => []
  | String c s' =>
      if isspace c then split s'
      else match s' with
           | EmptyString => [String c EmptyString]
           | String c' _ =>
               if isspace c' then String c EmptyString :: split s'
               else match split s' with
                    | w :: ws => String c w :: ws
                    | [] => [String c EmptyString]
                    end
           end
  end.

(** [s.startswith(p)], returning what follows the prefix. *)
Fixpoint strip_prefix (p s : string) : option string :=
  match p, s with
  | EmptyString, _ => Some s
  | String a p', String b s' =>
      if Ascii.eqb a b then strip_prefix p' s' else None
  | String _ _, EmptyString => None
  end.

Definition startswith (s p : string) : bool :=
  match strip_prefix p s with Some _ => true | None => false end.

(** The text before and after the first occurrence of [sep] in [s]. *)
Fixpoint partition (sep s : string) : option (string * string) :=
  match strip_prefix sep s with
  | Some rest => Some (EmptyString, rest)
  | None =>
      match s with
      | EmptyString => None
      | String c s' =>
          match partition sep s' with
          | Some (a, b) => Some (String c a, b)
          | None => None
          end
      end
  end.

(** [s.split(sep, 1)]: cut at the first occurrence only. *)
Definition split1 (s sep : string) : list string :=
  match partition sep s with
  | Some (a, b) => [a; b]
  | None => [s]
  end.

(** [s.count(sep)]: occurrences of [sep] found left to right, each search
    resuming after the previous occurrence. The fuel is the length of [s]. *)
Fixpoint count_from (fuel : nat) (sep s : string) : nat :=
  match fuel with
  | O => O
  | S fuel' =>
      match partition sep s with
      | Some (_, rest) => S (count_from fuel' sep rest)
      | None => O
      end
  end.

Definition count (s sep : string) : nat := count_from (String.length s) sep s.

(** [sub in s]. *)
Fixpoint contains (s sub : string) : bool :=
  if startswith s sub then true
  else match s with
       | EmptyString => false
       | String _ s' => contains s' sub
       end.

(** [s.endswith(c)] for a one-character suffix. *)
Fixpoint endswith (s : string) (c : ascii) : bool :=
  match s with
  | EmptyString => false
  | String a EmptyString => Ascii.eqb a c
  | String _ s' => endswith s' c
  end.

(** [s[:n]]. *)
Fixpoint take_str (n : nat) (s : string) : string :=
  match n, s with
  | S n', String c s' => String c (take_str n' s')
  | _, _ => EmptyString
  end.

(** [w in words] for a list of strings. *)
Definition in_list (w : string) (l : list string) : bool :=
  existsb (String.eqb w) l.

(** A [slice(start, stop)] object with non-negative bounds; [None] is an
    omitted bound. *)
Record slice := { start : option nat; stop : option nat }.

(** [l[sl]]: never raises, a slice reaching past the end is cut short. *)
Definition getslice {A} (l : list A) (sl : slice) : list A :=
  let a := match start sl with Some a => a | None => O end in
  match stop sl with
  | Some b => firstn (b - a) (skipn a l)
  | None => skipn a l
  end.

End Py.

Import Py.

(** ** Exceptions, logging and the query trace *)

(** The exceptions the modelled code can meet. *)
Inductive exn :=
| IndexError
| ValueError
| OverflowError
| DoesNotExist
| MultipleObjectsReturned.

(** What a Python call ends with: a value or a raised exception. *)
Inductive outcome (A : Type) :=
| Returned (a : A)
| Raised (e : exn).
Arguments Returned {A} a.
Arguments Raised {A} e.

(** ** Dates: [datetime] restricted to its calendar day *)

Module DateTime.

Record date := { year : Z; month : Z; day : Z }.

Definition is_leap (y : Z) : bool :=
  (y mod 4 =? 0) && (negb (y mod 100 =? 0) || (y mod 400 =? 0)).

Definition days_in_month (y m : Z) : Z :=
  if m =? 2 then (if is_leap y then 29 else 28)
  else if (m =? 4) || (m =? 6) || (m =? 9) || (m =? 11) then 30
  else 31.

Definition days_before_year (y : Z) : Z :=
  let y1 := y - 1 in
  y1 * 365 + y1 / 4 - y1 / 100 + y1 / 400.

(** Days of the months 1 .. m-1 of year [y]. *)
Definition days_before_month (y m : Z) : Z :=
  fold_right Z.add 0
    (map (fun k => days_in_month y (Z.of_nat k)) (seq 1 (Z.to_nat (m - 1)))).

(** [date.toordinal()]: 0001-01-01 is day 1. *)
Definition toordinal (d : date) : Z :=
  days_before_year (year d) + days_before_month (year d) (month d) + day d.

(** The dates [datetime.date(y, m, d)] accepts. *)
Definition valid (d : date) : bool :=
  (1 <=? year d) && (year d <=? 9999) &&
  (1 <=? month d) && (month d <=? 12) &&
  (1 <=? day d) && (day d <=? days_in_month (year d) (month d)).

Definition digit (c : ascii) : option Z :=
  let n := nat_of_ascii c in
  if ((48 <=? n) && (n <=? 57))%nat then Some (Z.of_nat (n - 48)) else None.

(** The texts the directive %m matches: 1[0-2], 0[1-9] or [1-9]. *)
Definition parse_m (s : string) : option Z :=
  match s with
  | String a EmptyString =>
      match digit a with
      | Some x => if 1 <=? x then Some x else None
      | None => None
      end
  | String a (String b EmptyString) =>
      match digit a, digit b with
      | Some 0, Some y => if 1 <=? y then Some y else None
      | Some 1, Some y => if y <=? 2 then Some (10 + y) else None
      | _, _ => None
      end
  | _ => None
  end.

(** The texts the directive %d matches: 3[01], [12][0-9], 0[1-9], [1-9] or
    a space and [1-9]. *)
Definition parse_d (s : string) : option Z :=
  match s with
  | String a EmptyString =>
      match digit a with
      | Some x => if 1 <=? x then Some x else None
      | None => None
      end
  | String a (String b EmptyString) =>
      match digit b with
      | None => None
      | Some y =>
          if Ascii.eqb a " " then (if 1 <=? y then Some y else None)
          else match digit a with
               | Some 0 => if 1 <=? y then Some y else None
               | Some 1 => Some (10 + y)
               | Some 2 => Some (20 + y)
               | Some 3 => if y <=? 1 then Some (30 + y) else None
               | _ => None
               end
      end
  | _ => None
  end.

(** The texts the directive %Y matches: four digits. *)
Definition parse_Y (s : string) : option Z :=
  match s with
  | String a (String b (String c (String d EmptyString))) =>
      match digit a, digit b, digit c, digit d with
      | Some x, Some y, Some z, Some w => Some (1000 * x + 100 * y + 10 * z + w)
      | _, _, _, _ => None
      end
  | _ => None
  end.

(** [datetime.strptime(s, '%m/%d/%Y')]: the whole text must have the form
    month/day/year and name a date of the calendar; anything else raises
    [ValueError]. The time of day of the result is midnight and is left
    out. *)
Definition strptime_mdY (s : string) : outcome date :=
  match partition "/" s with
  | None => Raised ValueError
  | Some (ms, rest) =>
      match partition "/" rest with
      | None => Raised ValueError
      | Some (ds, ys) =>
          match parse_m ms, parse_d ds, parse_Y ys with
          | Some m, Some d, Some y =>
              let r := {| year := y; month := m; day := d |} in
              if valid r then Returned r else Raised ValueError
          | _, _, _ => Raised ValueError
          end
      end
  end.

(** [d - timedelta(days=n)], as the ordinal of the resulting day; a result
    before 0001-01-01 raises [OverflowError]. *)
Definition minus_days (d : date) (n : Z) : outcome Z :=
  let o := toordinal d - n in
  if 1 <=? o then Returned o else Raised OverflowError.

End DateTime.
Import DateTime.

(** ** The database rows and the query layer *)

(** [cl.search.models.Court], the columns used here. *)
Record Court := {
  fjc_court_id : string;
  jurisdiction : string
}.

(** [cl.recap.models.FjcIntegratedDatabase], the columns used here. *)
Record FjcIntegratedDatabase := {
  pk : Z;
  dataset_source : Z;
  district : option Court;
  date_filed : date;
  docket_number : string;
  plaintiff : string;
  defendant : string
}.

(** [cl.search.models.RECAPDocument], the columns used here. *)
Record RECAPDocument := {
  rd_pk : Z;
  document_type : Z;
  rd_description : string;
  pacer_doc_id : string
}.

(** [cl.search.models.DocketEntry] with its [recap_documents]. *)
Record DocketEntry := {
  de_pk : Z;
  de_date_filed : date;
  description : string;
  recap_documents : list RECAPDocument
}.

(** A row of the spreadsheet, as [csv.DictReader] yields it: the columns
    'Case Name', 'Date' and 'AO ID'. *)
Record Row := {
  Case_Name : string;
  Date : string;
  AO_ID : string
}.

(** The party columns a lookup can name. *)
Inductive field := F_plaintiff | F_defendant.

(** The field lookups used: [__iexact], [__istartswith], [__icontains]. *)
Inductive lookup_type := iexact | istartswith | icontains.

(** [django.db.models.Q]: an empty [Q()], one keyword lookup, or two
    objects combined with [&] or [|]. *)
Inductive Q :=
| Q_empty
| Q_lookup (f : field) (lk : lookup_type) (value : string)
| Q_AND (a b : Q)
| Q_OR (a b : Q).

Definition Q_is_empty (q : Q) : bool :=
  match q with Q_empty => true | _ => false end.

(** [a & b] and [a | b]: an empty operand gives the other operand back. *)
Definition q_and (a b : Q) : Q :=
  if Q_is_empty b then a else if Q_is_empty a then b else Q_AND a b.

Definition q_or (a b : Q) : Q :=
  if Q_is_empty b then a else if Q_is_empty a then b else Q_OR a b.

Definition field_value (f : field) (r : FjcIntegratedDatabase) : string :=
  match f with
  | F_plaintiff => plaintiff r
  | F_defendant => defendant r
  end.

(** The case-insensitive lookups compare the column and the value after
    folding the case of both. *)
Definition lookup_holds (lk : lookup_type) (column value : string) : bool :=
  match lk with
  | iexact => String.eqb (lower column) (lower value)
  | istartswith => startswith (lower column) (lower value)
  | icontains => contains (lower column) (lower value)
  end.

(** Whether a row satisfies a [Q]; the empty [Q()] constrains nothing. *)
Fixpoint Q_holds (q : Q) (r : FjcIntegratedDatabase) : bool :=
  match q with
  | Q_empty => true
  | Q_lookup f lk value => lookup_holds lk (field_value f r) value
  | Q_AND a b => Q_holds a r && Q_holds b r
  | Q_OR a b => Q_holds a r || Q_holds b r
  end.

(** The positional and keyword arguments of one [filter] call. *)
Definition filter_tuple : Type := list Q * list (field * lookup_type * string).

(** [filter] keeps the rows satisfying every argument. *)
Definition filter_holds (ft : filter_tuple) (r : FjcIntegratedDatabase) : bool :=
  forallb (fun q => Q_holds q r) (fst ft) &&
  forallb (fun '(f, lk, value) => lookup_holds lk (field_value f r) value) (snd ft).

Definition qs_filter (qs : list FjcIntegratedDatabase) (ft : filter_tuple)
  : list FjcIntegratedDatabase :=
  List.filter (filter_holds ft) qs.

(** [order_by('-date_filed')]: most recent first; rows of the same day keep
    the order the table gives them. *)
Fixpoint insert_desc (r : FjcIntegratedDatabase) (l : list FjcIntegratedDatabase)
  : list FjcIntegratedDatabase :=
  match l with
  | [] => [r]
  | x :: l' =>
      if toordinal (date_filed x) <=? toordinal (date_filed r) then r :: l
      else x :: insert_desc r l'
  end.

Definition order_by_date_filed_desc (l : list FjcIntegratedDatabase)
  : list FjcIntegratedDatabase :=
  fold_right insert_desc [] l.

(** [requests.structures.CaseInsensitiveDict]: the entries are stored under
    the lower-cased key, next to the key as it was given. *)
Module CaseInsensitiveDict.

Definition setitem (d : gmap string (string * list string))
    (key : string) (value : list string) : gmap string (string * list string) :=
  <[lower key := (key, value)]> d.

(** [key in d]. *)
Definition contains_key (d : gmap string (string * list string)) (key : string) : bool :=
  match d !! lower key with Some _ => true | None => false end.

(** [d[key]], read only where [key in d] has been checked. *)
Definition getitem (d : gmap string (string * list string)) (key : string) : list string :=
  match d !! lower key with Some (_, value) => value | None => [] end.

End CaseInsensitiveDict.

(** ** Log records and the trace of a run *)

(** The messages the code logs. *)
Inductive message :=
| Unable_to_find_v_in_case_name
| Got_multiple_v_in_the_case_name
| Unable_to_find_result (ft : filter_tuple)
| Got_one_result (ft : filter_tuple)
| Got_results_choosing_closest (count : nat)
| Got_too_many_results (ft : filter_tuple)
| No_docket_entries_found.

(** What a run leaves behind: log records, and the queries the IDB table
    receives ([count()] with the number it answers, and [results[i]]). *)
Inductive event :=
| logger_warn (m : message)
| logger_info (m : message)
| query_count (ft : filter_tuple) (n : nat)
| query_getitem (ft : filter_tuple) (i : nat).

(** A computation that logs, queries, and returns or raises. *)
Definition M (A : Type) : Type := outcome A * list event.

Definition ret {A} (a : A) : M A := (Returned a, []).

Definition raise {A} (e : exn) : M A := (Raised e, []).

Definition bind {A B} (m : M A) (k : A -> M B) : M B :=
  match m with
  | (Returned a, t) => let (r, t') := k a in (r, (t ++ t')%list)
  | (Raised e, t) => (Raised e, t)
  end.

Notation "x <- m ; k" := (bind m (fun x => k))
  (at level 20, m at level 100, k at level 200, only parsing).
Notation "m >> k" := (bind m (fun _ => k))
  (at level 100, k at level 200, only parsing, right associativity).

Definition emit (ev : event) : M unit := (Returned tt, [ev]).

(** A call of a function that only returns or raises. *)
Definition call {A} (o : outcome A) : M A := (o, []).

(** [try: body except IndexError: handler]. *)
Definition except_IndexError {A} (body : M A) (handler : M A) : M A :=
  match body with
  | (Raised IndexError, t) => let (r, t') := handler in (r, (t ++ t')%list)
  | other => other
  end.

(** [l[i]] on a Python list. *)
Definition getitem {A} (l : list A) (i : nat) : M A :=
  match nth_error l i with
  | Some x => ret x
  | None => raise IndexError
  end.

(** [a, b = l]: anything but two items raises [ValueError]. *)
Definition unpack2 {A} (l : list A) : outcome (A * A) :=
  match l with
  | [a; b] => Returned (a, b)
  | _ => Raised ValueError
  end.

(** [results.count()] and [results[i]] on a query set, as the table sees
    them. *)
Definition qs_count (ft : filter_tuple) (results : list FjcIntegratedDatabase) : M nat :=
  emit (query_count ft (length results)) >> ret (length results).

Definition qs_getitem (ft : filter_tuple) (results : list FjcIntegratedDatabase) (i : nat)
  : M FjcIntegratedDatabase :=
  emit (query_getitem ft i) >> getitem results i.

(** ** The importer *)

Section GSU.

(** The module-level table [CASE_NAME_IABBREVIATIONS], a
    [CaseInsensitiveDict] built from [reporters_db.CASE_NAME_ABBREVIATIONS],
    and the constants [cl.recap.constants.CV_2017],
    [Court.FEDERAL_BANKRUPTCY] and [RECAPDocument.PACER_DOCUMENT] come from
    other modules; the importer is read for any value of them. *)
Variable CASE_NAME_IABBREVIATIONS : gmap string (string * list string).
Variable CV_2017 : Z.
Variable FEDERAL_BANKRUPTCY : string.
Variable PACER_DOCUMENT : Z.

(** [make_party_q(party, lookup_field, term_slice)]. *)
Definition make_party_q (party : string) (lookup_field : field) (term_slice : slice) : Q :=
  fold_left
    (fun new_q word =>
       let q :=
         if endswith word "." &&
            CaseInsensitiveDict.contains_key CASE_NAME_IABBREVIATIONS word
         then
           fold_left
             (fun q abbrev => q_or q (Q_lookup lookup_field icontains abbrev))
             (CaseInsensitiveDict.getitem CASE_NAME_IABBREVIATIONS word)
             (Q_lookup lookup_field icontains word)
         else Q_lookup lookup_field icontains word in
       q_and new_q q)
    (getslice (split party) term_slice)
    Q_empty.

(** The rows [orig_query] selects, before ordering: civil data set, the
    row's court, filed on or before the opinion's day and not before
    [earliest], the district not a bankruptcy court. *)
Definition orig_query_holds (ao_id : string) (opinion_date : date) (earliest : Z)
    (r : FjcIntegratedDatabase) : bool :=
  (dataset_source r =? CV_2017) &&
  match district r with
  | Some c => String.eqb (fjc_court_id c) ao_id
  | None => false
  end &&
  (toordinal (date_filed r) <=? toordinal opinion_date) &&
  (earliest <=? toordinal (date_filed r)) &&
  negb match district r with
       | Some c => String.eqb (jurisdiction c) FEDERAL_BANKRUPTCY
       | None => false
       end.

(** The list [filter_tuples] of [lookup_row], strictest first. *)
Definition filter_tuples (plaintiff defendant : string) : list filter_tuple :=
  [ ([], [(F_plaintiff, iexact, take_str 30 plaintiff);
          (F_defendant, iexact, take_str 30 defendant)]);
    ([], [(F_plaintiff, istartswith, take_str 30 plaintiff);
          (F_defendant, istartswith, take_str 30 defendant)]);
    ([make_party_q defendant F_defendant {| start := None; stop := Some 3%nat |};
      make_party_q plaintiff F_plaintiff {| start := None; stop := Some 3%nat |}], []);
    ([make_party_q defendant F_defendant {| start := None; stop := Some 1%nat |};
      make_party_q plaintiff F_plaintiff {| start := None; stop := Some 1%nat |}], []);
    ([make_party_q plaintiff F_plaintiff {| start := Some 1%nat; stop := Some 2%nat |};
      make_party_q defendant F_defendant {| start := None; stop := Some 1%nat |}], []) ].

(** The loop of [lookup_row] over the remaining filter tuples. Running out
    of tuples ends the function, which then returns [None]. *)
Fixpoint lookup_loop (orig_query : list FjcIntegratedDatabase)
    (tuples : list filter_tuple) : M (option FjcIntegratedDatabase) :=
  match tuples with
  | [] => ret None
  | ft :: rest =>
      let results := qs_filter orig_query ft in
      count <- qs_count ft results;
      if (count =? 0)%nat then
        emit (logger_warn (Unable_to_find_result ft)) >>
        lookup_loop orig_query rest
      else if (count =? 1)%nat then
        emit (logger_info (Got_one_result ft)) >>
        r <- qs_getitem ft results 0;
        ret (Some r)
      else if ((count <? 5) && (1 <? count))%nat then
        emit (logger_info (Got_results_choosing_closest count)) >>
        r <- qs_getitem ft results 0;
        ret (Some r)
      else
        emit (logger_warn (Got_too_many_results ft)) >>
        ret None
  end.

(** [lookup_row(row)] against the rows [table] of the IDB. *)
Definition lookup_row (row : Row) (table : list FjcIntegratedDatabase)
  : M (option FjcIntegratedDatabase) :=
  match unpack2 (split1 (lower (Case_Name row)) " v. ") with
  | Raised IndexError =>
      emit (logger_warn Unable_to_find_v_in_case_name) >> ret None
  | Raised ValueError =>
      emit (logger_warn Got_multiple_v_in_the_case_name) >> ret None
  | Raised e => raise e
  | Returned (plaintiff, defendant) =>
      opinion_date <- call (strptime_mdY (Date row));
      earliest <- call (minus_days opinion_date (365 * 5));
      let orig_query :=
        order_by_date_filed_desc
          (List.filter (orig_query_holds (AO_ID row) opinion_date earliest) table) in
      lookup_loop orig_query (filter_tuples plaintiff defendant)
  end.

(** The vocabulary of [filter_des]. *)
Definition core_words : list string :=
  [ "decided"; "decision"; "denial"; "denied"; "denying"; "entered";
    "entry"; "finding"; "findings"; "grant"; "granted"; "granting";
    "judge"; "magistrate"; "opinion"; "order"; "ordered ";
    "recommendation" ].

Definition prefix_words : list string :=
  [ "amended"; "corrected"; "final"; "further";
    "initial"; "modified"; "revised" ].

Definition pre_prefix_words : list string := [ "memorandum"; "report" ].

(** [words[i] in vocabulary], and Python's short-circuit [and] / [or]. *)
Definition word_in (words : list string) (i : nat) (vocabulary : list string) : M bool :=
  w <- getitem words i; ret (in_list w vocabulary).

Definition and_ (a b : M bool) : M bool :=
  x <- a; if x then b else ret false.

Definition or_ (a b : M bool) : M bool :=
  x <- a; if x then ret true else b.

(** The four tests of [filter_des], in the order of the list given to
    [any]. *)
Definition des_rules (words : list string) : list (M bool) :=
  [ word_in words 0 core_words;
    and_ (word_in words 0 prefix_words)
         (word_in words 1 core_words);
    and_ (word_in words 0 pre_prefix_words)
         (or_ (word_in words 1 core_words) (word_in words 2 core_words));
    and_ (word_in words 0 prefix_words)
         (and_ (word_in words 1 pre_prefix_words)
               (or_ (word_in words 2 core_words) (word_in words 3 core_words))) ].

(** A list display [[e1, e2, ...]]: every element is evaluated, left to
    right, before the list exists. *)
Fixpoint list_display {A} (elements : list (M A)) : M (list A) :=
  match elements with
  | [] => ret []
  | e :: rest => x <- e; xs <- list_display rest; ret (x :: xs)
  end.

(** [any(l)] on a list of booleans. *)
Definition any (l : list bool) : bool := existsb (fun b => b) l.

(** [de.recap_documents.get(document_type=...)]: exactly one document, or
    an exception. *)
Definition recap_documents_get (de : DocketEntry) (doc_type : Z) : M RECAPDocument :=
  match List.filter (fun rd => document_type rd =? doc_type) (recap_documents de) with
  | [] => raise DoesNotExist
  | [rd] => ret rd
  | _ :: _ :: _ => raise MultipleObjectsReturned
  end.

(** The loop of [filter_des] over the remaining entries, [good_des] being
    the list built so far. *)
Fixpoint filter_des_loop (des : list DocketEntry) (good_des : list DocketEntry)
  : M (list DocketEntry) :=
  match des with
  | [] => ret good_des
  | de :: rest =>
      desc <- (if String.eqb (description de) "" then
                rd <- recap_documents_get de PACER_DOCUMENT;
                ret (rd_description rd)
              else ret (description de)) : M string;
      let words := split (lower desc) in
      good_des' <- except_IndexError
                    (tests <- list_display (des_rules words);
                     if any tests then ret (good_des ++ [de])%list
                     else ret good_des)
                    (ret good_des);
      filter_des_loop rest good_des'
  end.

(** [filter_des(des)]. *)
Definition filter_des (des : list DocketEntry) : M (list DocketEntry) :=
  filter_des_loop des [].

(** The step of [download_documents] that chooses, for one row, the docket
    entries to download among those of the docket [docket_entries] filed on
    [document_date]; [None] stands for the [continue] that skips the row. *)
Definition download_documents_good_des (docket_entries : list DocketEntry)
    (document_date : date) : M (option (list DocketEntry)) :=
  let des :=
    List.filter
      (fun de => toordinal (de_date_filed de) =? toordinal document_date)
      docket_entries in
  let count := length des in
  if (count =? 0)%nat then
    emit (logger_warn No_docket_entries_found) >> ret None
  else if (length des =? 1)%nat then
    de <- getitem des 0;
    ret (Some [de])
  else
    good_des <- filter_des des;
    ret (Some good_des).

(** ** The command around the core: the three passes over the sheet *)

(** [Court.FEDERAL_DISTRICT], from [cl.search.models]. *)
Variable FEDERAL_DISTRICT : string.

(** [TAG_NAME] and [TAG_NAME_OPINIONS]. *)
Definition TAG_NAME : string := "yDVxdAsAKSixdsoM".
Definition TAG_NAME_OPINIONS : string := TAG_NAME ++ "-opinions".

(** [s.rjust(width, fillchar)]: [s] itself when it is long enough. *)
Definition rjust (s : string) (width : nat) (fillchar : ascii) : string :=
  fold_right String s (repeat fillchar (width - String.length s)).

(** A row of the sheet with the columns the three passes read: those of
    [lookup_row], 'idb_docket_number', 'student_docket_number',
    'cl_d_docket_number' and 'cl_d_docket_number (student)'. A line of the
    file with more cells than the header has gives a row that holds the
    cells beyond the header under the key [None]: they are [extra_cells],
    empty for a row without that key. Every row has a cell in each of the
    named columns: a line that stops before one of them is no [SheetRow]. *)
Record SheetRow := {
  lookup_columns : Row;
  idb_docket_number : string;
  student_docket_number : string;
  cl_d_docket_number : string;
  cl_d_docket_number_student : string;
  extra_cells : list string
}.

(** The three columns [update_csv_with_idb_lookups] adds to a row:
    'fjc_id', 'docket_number' and 'case_name'. *)
Record Annotation := {
  fjc_id : Z;
  annotated_docket_number : string;
  case_name : string
}.

(** [cl.search.models.Docket] with its [docket_entries]; [court] holds the
    primary key of the docket's court. *)
Record Docket := {
  d_pk : Z;
  d_docket_number : string;
  d_court : string;
  docket_entries : list DocketEntry
}.

(** The options of the command that the passes read. *)
Record Options := {
  offset : Z;
  limit : Z;
  log_only : bool;
  task : string
}.

(** What a pass leaves behind: what the core logged and asked the IDB
    table, the log records of the pass, the rows written to the annotated
    sheet, and the jobs handed to the task queue or run at once. *)
Inductive command_event :=
| core (ev : event)
| info_doing_row_with_contents (row : SheetRow)
| info_result (result : option FjcIntegratedDatabase)
| info_doing_row (i : Z) (row : SheetRow)
| writeheader
| writerow (row : SheetRow) (added : option Annotation)
| warn_no_docket_number_found (i : Z)
| warn_multiple_objects_returned (i : Z)
| warn_could_not_find_docket (i : Z)
| warn_unable_to_get_pacer_doc_id (rd : Z)
| apply_async_docket (docket_number court_id case : string) (tag_names : list string)
| add_tags (rd : Z) (tag : string)
| apply_async_document (rd : Z) (tag : string).

(** A pass: it returns or raises, and leaves its events. *)
Definition Cmd (A : Type) : Type := outcome A * list command_event.

Definition cmd_ret {A} (a : A) : Cmd A := (Returned a, []).

Definition cmd_raise {A} (e : exn) : Cmd A := (Raised e, []).

Definition cmd_bind {A B} (m : Cmd A) (k : A -> Cmd B) : Cmd B :=
  match m with
  | (Returned a, t) => let (r, t') := k a in (r, (t ++ t')%list)
  | (Raised e, t) => (Raised e, t)
  end.

Definition cmd_emit (ev : command_event) : Cmd unit := (Returned tt, [ev]).

(** A call into the core, and a call that only returns or raises. *)
Definition cmd_core {A} (m : M A) : Cmd A := (fst m, map core (snd m)).

Definition cmd_call {A} (o : outcome A) : Cmd A := (o, []).

Notation "x <~ m ; k" := (cmd_bind m (fun x => k))
  (at level 20, m at level 100, k at level 200, only parsing).
Notation "m >>> k" := (cmd_bind m (fun _ => k))
  (at level 100, k at level 200, only parsing, right associativity).

(** [enumerate(reader)]. *)
Fixpoint enumerate_from {A} (i : Z) (rows : list A) : list (Z * A) :=
  match rows with
  | [] => []
  | row :: rest => (i, row) :: enumerate_from (i + 1) rest
  end.

Definition enumerate {A} (rows : list A) : list (Z * A) := enumerate_from 0 rows.

(** The loop the three passes share:
    [for i, row in enumerate(reader)], skipping the rows before
    [options['offset']] and stopping at [options['limit']] when it is
    positive; [body] is the rest of the loop body, whose [continue] is a
    return. *)
Fixpoint for_rows {A} (options : Options) (body : Z -> A -> Cmd unit)
    (indexed : list (Z * A)) : Cmd unit :=
  match indexed with
  | [] => cmd_ret tt
  | (i, row) :: rest =>
      if i <? offset options then for_rows options body rest
      else if (limit options <=? i) && (0 <? limit options) then cmd_ret tt
      else body i row >>> for_rows options body rest
  end.

(** [writer.writerow(row)] on the [csv.DictWriter] whose field names are
    those of the header and the three added columns: a row that holds the
    key [None] has a key that is no field name, and the call raises
    [ValueError] before anything is written. *)
Definition DictWriter_writerow (row : SheetRow) (added : option Annotation)
  : Cmd unit :=
  match extra_cells row with
  | [] => cmd_emit (writerow row added)
  | _ :: _ => cmd_raise ValueError
  end.

(** The body of the loop of [update_csv_with_idb_lookups]. *)
Definition update_csv_row (options : Options)
    (table : list FjcIntegratedDatabase) (i : Z) (row : SheetRow) : Cmd unit :=
  cmd_emit (info_doing_row_with_contents row) >>>
  result <~ cmd_core (lookup_row (lookup_columns row) table);
  cmd_emit (info_result result) >>>
  let added :=
    match result with
    | Some r =>
        Some {| fjc_id := pk r;
                annotated_docket_number := docket_number r;
                case_name := plaintiff r ++ " v. " ++ defendant r |}
    | None => None
    end in
  if negb (log_only options) then DictWriter_writerow row added
  else cmd_ret tt.

(** [update_csv_with_idb_lookups(options)] on the rows of the input file. *)
Definition update_csv_with_idb_lookups (options : Options)
    (rows : list SheetRow) (table : list FjcIntegratedDatabase) : Cmd unit :=
  cmd_emit writeheader >>>
  for_rows options (update_csv_row options table) (enumerate rows).

(** [Court.objects.get(fjc_court_id=..., jurisdiction=...)] on the courts,
    each with its primary key: exactly one court, or an exception. *)
Definition Court_objects_get (courts : list (string * Court))
    (court_id kind : string) : outcome (string * Court) :=
  match List.filter
          (fun c => String.eqb (fjc_court_id (snd c)) court_id &&
                    String.eqb (jurisdiction (snd c)) kind)
          courts with
  | [] => Raised DoesNotExist
  | [c] => Returned c
  | _ :: _ :: _ => Raised MultipleObjectsReturned
  end.

(** The body of the loop of [download_dockets]. *)
Definition download_dockets_row (options : Options)
    (courts : list (string * Court)) (i : Z) (row : SheetRow) : Cmd unit :=
  cmd_emit (info_doing_row i row) >>>
  let queue docket_number :=
    court <~ cmd_call
               (Court_objects_get courts
                  (rjust (AO_ID (lookup_columns row)) 2 "0") FEDERAL_DISTRICT);
    cmd_emit (apply_async_docket docket_number (fst court)
                (Case_Name (lookup_columns row)) [TAG_NAME]) in
  if negb (String.eqb (idb_docket_number row) "") then
    if String.eqb (task options) "download_student_dockets" then cmd_ret tt
    else queue (rjust (idb_docket_number row) 7 "0")
  else if negb (String.eqb (student_docket_number row) "") then
    queue (student_docket_number row)
  else cmd_ret tt.

(** [download_dockets(options)]. *)
Definition download_dockets (options : Options) (rows : list SheetRow)
    (courts : list (string * Court)) : Cmd unit :=
  for_rows options (download_dockets_row options courts) (enumerate rows).

(** [Docket.objects.get(docket_number=..., court=...)]. *)
Definition Docket_objects_get (dockets : list Docket)
    (number : string) (court : string * Court) : outcome Docket :=
  match List.filter
          (fun d => String.eqb (d_docket_number d) number &&
                    String.eqb (d_court d) (fst court))
          dockets with
  | [] => Raised DoesNotExist
  | [d] => Returned d
  | _ :: _ :: _ => Raised MultipleObjectsReturned
  end.

(** The inner loop of [download_documents] over the primary documents of
    one docket entry. *)
Fixpoint download_documents_rds (options : Options) (rds : list RECAPDocument)
  : Cmd unit :=
  match rds with
  | [] => cmd_ret tt
  | rd :: rest =>
      (if String.eqb (pacer_doc_id rd) "" then
         cmd_emit (warn_unable_to_get_pacer_doc_id (rd_pk rd))
       else if String.eqb (task options) "add_extra_tags" then
         cmd_emit (add_tags (rd_pk rd) TAG_NAME_OPINIONS)
       else
         cmd_emit (apply_async_document (rd_pk rd) TAG_NAME)) >>>
      download_documents_rds options rest
  end.

(** The loop of [download_documents] over the chosen docket entries. *)
Fixpoint download_documents_des (options : Options) (good_des : list DocketEntry)
  : Cmd unit :=
  match good_des with
  | [] => cmd_ret tt
  | de :: rest =>
      download_documents_rds options
        (List.filter (fun rd => document_type rd =? PACER_DOCUMENT)
           (recap_documents de)) >>>
      download_documents_des options rest
  end.

(** The body of the loop of [download_documents]. *)
Definition download_documents_row (options : Options)
    (courts : list (string * Court)) (dockets : list Docket)
    (i : Z) (row : SheetRow) : Cmd unit :=
  cmd_emit (info_doing_row i row) >>>
  let docket_number :=
    if negb (String.eqb (cl_d_docket_number row) "") then cl_d_docket_number row
    else cl_d_docket_number_student row in
  if String.eqb docket_number "" then
    cmd_emit (warn_no_docket_number_found i)
  else
    court <~ cmd_call
               (Court_objects_get courts
                  (rjust (AO_ID (lookup_columns row)) 2 "0") FEDERAL_DISTRICT);
    match Docket_objects_get dockets docket_number court with
    | Raised MultipleObjectsReturned =>
        cmd_emit (warn_multiple_objects_returned i)
    | Raised DoesNotExist =>
        cmd_emit (warn_could_not_find_docket i)
    | Raised e => cmd_raise e
    | Returned d =>
        document_date <~ cmd_core (call (strptime_mdY (Date (lookup_columns row))));
        good_des <~ cmd_core
                      (download_documents_good_des (docket_entries d) document_date);
        match good_des with
        | None => cmd_ret tt
        | Some good_des => download_documents_des options good_des
        end
    end.

(** [download_documents(options)]. *)
Definition download_documents (options : Options) (rows : list SheetRow)
    (courts : list (string * Court)) (dockets : list Docket) : Cmd unit :=
  for_rows options (download_documents_row options courts dockets)
    (enumerate rows).

(** [Command.allowed_tasks]. *)
Definition allowed_tasks : list string :=
  [ "lookup_in_idb"; "download_dockets"; "download_student_dockets";
    "download_documents"; "add_extra_tags" ].

(** [Command.handle], after the input file has been checked and read: the
    pass the task names, or nothing at all. *)
Definition handle (options : Options) (rows : list SheetRow)
    (table : list FjcIntegratedDatabase) (courts : list (string * Court))
    (dockets : list Docket) : Cmd unit :=
  if String.eqb (task options) "lookup_in_idb" then
    update_csv_with_idb_lookups options rows table
  else if String.eqb (task options) "download_dockets" ||
          String.eqb (task options) "download_student_dockets" then
    download_dockets options rows courts
  else if String.eqb (task options) "download_documents" ||
          String.eqb (task options) "add_extra_tags" then
    download_documents options rows courts dockets
  else cmd_ret tt.

(** ** Notions used to state the properties *)

(** The events of a trace that are queries to the IDB table. *)
Definition is_query (ev : event) : bool :=
  match ev with
  | query_count _ _ | query_getitem _ _ => true
  | _ => false
  end.

Definition queries (tr : list event) : list event := List.filter is_query tr.

Definition is_warning (ev : event) : bool :=
  match ev with logger_warn _ => true | _ => false end.

(** What the rest of [lookup_row] works with once the case name has been
    cut in two and the date read. *)
Definition row_parses (row : Row) (plaintiff defendant : string)
    (opinion_date : date) (earliest : Z) : Prop :=
  unpack2 (split1 (lower (Case_Name row)) " v. ") = Returned (plaintiff, defendant) /\
  strptime_mdY (Date row) = Returned opinion_date /\
  minus_days opinion_date (365 * 5) = Returned earliest.

(** The candidate pool [orig_query] of [lookup_row]. *)
Definition orig_query (row : Row) (opinion_date : date) (earliest : Z)
    (table : list FjcIntegratedDatabase) : list FjcIntegratedDatabase :=
  order_by_date_filed_desc
    (List.filter (orig_query_holds (AO_ID row) opinion_date earliest) table).

(** The trace left by stages that found nothing. *)
Definition broadening (tuples : list filter_tuple) : list event :=
  flat_map
    (fun ft => [query_count ft 0; logger_warn (Unable_to_find_result ft)])
    tuples.

(** Most recent first. *)
Fixpoint sorted_desc (l : list FjcIntegratedDatabase) : Prop :=
  match l with
  | [] => True
  | x :: l' =>
      (forall y, In y l' -> toordinal (date_filed y) <= toordinal (date_filed x)) /\
      sorted_desc l'
  end.

(** The test one word of a party contributes to [make_party_q]: the word
    or, for a registered abbreviation ending in a period, the word or any
    of its expansions, as a case-insensitive substring of the column. *)
Definition word_holds (lookup_field : field) (r : FjcIntegratedDatabase)
    (word : string) : bool :=
  if endswith word "." &&
     CaseInsensitiveDict.contains_key CASE_NAME_IABBREVIATIONS word
  then
    existsb (fun v => lookup_holds icontains (field_value lookup_field r) v)
      (word :: CaseInsensitiveDict.getitem CASE_NAME_IABBREVIATIONS word)
  else lookup_holds icontains (field_value lookup_field r) word.

(** The description a docket entry is classified by: its own, or that of
    its one document of the primary kind when its own is empty. *)
Definition description_text (de : DocketEntry) : option string :=
  if String.eqb (description de) "" then
    match List.filter (fun rd => document_type rd =? PACER_DOCUMENT)
            (recap_documents de) with
    | [rd] => Some (rd_description rd)
    | _ => None
    end
  else Some (description de).

(** A rule matches when it can be evaluated and is true; a rule that
    indexes past the last word does not match. *)
Definition rule_matches (rule : M bool) : bool :=
  match rule with
  | (Returned true, _) => true
  | _ => false
  end.

(** An entry is kept when at least one of the four rules matches the words
    of its lower-cased description, each rule being judged on its own. *)
Definition keeps (de : DocketEntry) : bool :=
  match description_text de with
  | Some desc => existsb rule_matches (des_rules (split (lower desc)))
  | None => false
  end.

Definition resolvable (de : DocketEntry) : Prop :=
  description_text de <> None.

(** The same four rules read as plain conditions on the words, a word
    that is not there belonging to no vocabulary. *)
Definition token_in (words : list string) (i : nat) (vocabulary : list string) : bool :=
  match nth_error words i with
  | Some w => in_list w vocabulary
  | None => false
  end.

Definition some_rule_holds (words : list string) : bool :=
  token_in words 0 core_words
  || (token_in words 0 prefix_words && token_in words 1 core_words)
  || (token_in words 0 pre_prefix_words &&
      (token_in words 1 core_words || token_in words 2 core_words))
  || (token_in words 0 prefix_words && token_in words 1 pre_prefix_words &&
      (token_in words 2 core_words || token_in words 3 core_words)).

(** The claim of a window of five calendar years, in the words of the
    specification: the day five years before the reference day has the
    same month and day and the year lowered by five. *)
Definition five_years_before (d : date) : date :=
  {| year := year d - 5; month := month d; day := day d |}.

Definition in_five_year_window (reference filed : date) : Prop :=
  toordinal (five_years_before reference) <= toordinal filed <= toordinal reference.

(** A row of the table that is civil, of the court of the spreadsheet row,
    and not of a bankruptcy court. *)
Definition civil_in_forum (row : Row) (r : FjcIntegratedDatabase) : Prop :=
  dataset_source r = CV_2017 /\
  exists c, district r = Some c /\
            fjc_court_id c = AO_ID row /\
            jurisdiction c <> FEDERAL_BANKRUPTCY.

(** The docket entries of a docket filed on a given day, the [des] of
    [download_documents]. *)
Definition entries_filed_on (docket_entries : list DocketEntry)
    (document_date : date) : list DocketEntry :=
  List.filter
    (fun de => toordinal (de_date_filed de) =? toordinal document_date)
    docket_entries.

(** A stage of [filter_tuples], by position, whose slices ask for more
    words than a party has: three for the third stage, one for the fourth,
    two words of the plaintiff for the fifth. *)
Definition stage_asks_more_words (k : nat) (plaintiff defendant : string) : Prop :=
  match k with
  | 2%nat => (length (split plaintiff) < 3 \/ length (split defendant) < 3)%nat
  | 3%nat => (length (split plaintiff) < 1 \/ length (split defendant) < 1)%nat
  | 4%nat => (length (split plaintiff) < 2)%nat
  | _ => False
  end.

(** A stage has decided the run when the table answered its count query
    with a positive number. *)
Definition stage_decides (ft : filter_tuple) (tr : list event) : Prop :=
  exists n, (0 < n)%nat /\ In (query_count ft n) tr.

(** The stages before position [k] all found nothing. *)
Definition earlier_stages_empty (pool : list FjcIntegratedDatabase)
    (tuples : list filter_tuple) (k : nat) : Prop :=
  forall j ft, (j < k)%nat -> nth_error tuples j = Some ft ->
    length (qs_filter pool ft) = 0%nat.

(** Every character of a word produced by [split] is not whitespace. *)
Fixpoint no_space (w : string) : Prop :=
  match w with
  | EmptyString => True
  | String c w' => isspace c = false /\ no_space w'
  end.

(** The exception the first entry whose description cannot be read gives
    rise to: an entry with an empty description and no primary document,
    or several. *)
Fixpoint first_unreadable (des : list DocketEntry) : option exn :=
  match des with
  | [] => None
  | de :: rest =>
      if String.eqb (description de) "" then
        match List.filter (fun rd => document_type rd =? PACER_DOCUMENT)
                (recap_documents de) with
        | [] => Some DoesNotExist
        | [_] => first_unreadable rest
        | _ :: _ :: _ => Some MultipleObjectsReturned
        end
      else first_unreadable rest
  end.

(** The rows a pass handles: those whose index, counted from 0, is not
    before the offset and, when the limit is positive, is before the
    limit. *)
Definition in_window (options : Options) (i : Z) : bool :=
  (offset options <=? i) && ((limit options <=? 0) || (i <? limit options)).

Definition window {A} (options : Options) (rows : list A) : list (Z * A) :=
  List.filter (fun ir => in_window options (fst ir)) (enumerate rows).

(** A loop body run on each row of a list in turn, up to the first one
    that raises. *)
Fixpoint run_rows {A} (body : Z -> A -> Cmd unit) (indexed : list (Z * A))
  : Cmd unit :=
  match indexed with
  | [] => cmd_ret tt
  | (i, row) :: rest => body i row >>> run_rows body rest
  end.

(** The rows written to the annotated sheet, with what was added to them. *)
Definition written (tr : list command_event)
  : list (SheetRow * option Annotation) :=
  flat_map
    (fun ev => match ev with writerow row added => [(row, added)] | _ => [] end)
    tr.

Definition is_writerow (ev : command_event) : bool :=
  match ev with writerow _ _ => true | _ => false end.

(** What the lookup of a row adds to it. *)
Definition annotation_of (table : list FjcIntegratedDatabase) (row : SheetRow)
  : option Annotation :=
  match fst (lookup_row (lookup_columns row) table) with
  | Returned (Some r) =>
      Some {| fjc_id := pk r;
              annotated_docket_number := docket_number r;
              case_name := plaintiff r ++ " v. " ++ defendant r |}
  | _ => None
  end.

(** A row the pass can write: nothing is written under [log_only], and
    otherwise the row must hold no cell beyond the header. *)
Definition writes_cleanly (options : Options) (row : SheetRow) : Prop :=
  log_only options = true \/ extra_cells row = [].

(** The exception the handling of a row by [update_csv_with_idb_lookups]
    ends with: the one [lookup_row] raises, or the [ValueError] of the
    writer on a row, looked up without exception, that is too long. *)
Definition fails_with (options : Options) (table : list FjcIntegratedDatabase)
    (row : SheetRow) (e : exn) : Prop :=
  fst (lookup_row (lookup_columns row) table) = Raised e \/
  ((exists res, fst (lookup_row (lookup_columns row) table) = Returned res) /\
   log_only options = false /\ extra_cells row <> [] /\ e = ValueError).

Definition with_log_only (b : bool) (options : Options) : Options :=
  {| offset := offset options; limit := limit options;
     log_only := b; task := task options |}.

(** The rows of the sheet for which [download_dockets] looks up the court:
    those with an IDB docket number, except in the pass for the students'
    numbers, and those with only a student's number. *)
Definition wants_docket (options : Options) (row : SheetRow) : bool :=
  if negb (String.eqb (idb_docket_number row) "") then
    negb (String.eqb (task options) "download_student_dockets")
  else negb (String.eqb (student_docket_number row) "").

(** The court of a row, as the download passes look it up. *)
Definition court_of (courts : list (string * Court)) (row : SheetRow)
  : outcome (string * Court) :=
  Court_objects_get courts (rjust (AO_ID (lookup_columns row)) 2 "0")
    FEDERAL_DISTRICT.

(** The docket number [download_documents] reads from a row. *)
Definition document_docket_number (row : SheetRow) : string :=
  if negb (String.eqb (cl_d_docket_number row) "") then cl_d_docket_number row
  else cl_d_docket_number_student row.

(** The docket number [download_dockets] queues for a row: the IDB number
    padded with zeros to seven characters, or else the student's number. *)
Definition docket_number_of (row : SheetRow) : string :=
  if negb (String.eqb (idb_docket_number row) "") then
    rjust (idb_docket_number row) 7 "0"
  else student_docket_number row.

(** The docket downloads a pass has queued: docket number, court, case
    name. *)
Definition docket_jobs (tr : list command_event) : list (string * string * string) :=
  flat_map
    (fun ev => match ev with
               | apply_async_docket number court_id case _ =>
                   [(number, court_id, case)]
               | _ => []
               end)
    tr.

(** The job [download_dockets] queues for a row whose court is found. *)
Definition docket_job_of (courts : list (string * Court)) (row : SheetRow)
  : list (string * string * string) :=
  match court_of courts row with
  | Returned c => [(docket_number_of row, fst c, Case_Name (lookup_columns row))]
  | Raised _ => []
  end.

(** A primary document of a docket entry filed on the date of the row, in
    the docket the row names at the court the row names. *)
Definition document_of_row (courts : list (string * Court))
    (dockets : list Docket) (row : SheetRow) (r : RECAPDocument) : Prop :=
  exists c d document_date de,
    court_of courts row = Returned c /\
    Docket_objects_get dockets (document_docket_number row) c = Returned d /\
    strptime_mdY (Date (lookup_columns row)) = Returned document_date /\
    In de (entries_filed_on (docket_entries d) document_date) /\
    In r (recap_documents de) /\
    document_type r = PACER_DOCUMENT.

(** An event that acts on a document: a tag added, or a download queued. *)
Definition acts_on (ev : command_event) (rd : Z) : Prop :=
  exists tag, ev = add_tags rd tag \/ ev = apply_async_document rd tag.

Definition with_task (name : string) (options : Options) : Options :=
  {| offset := offset options; limit := limit options;
     log_only := log_only options; task := name |}.

(** ** Sample data *)

(** A table with the entry {"Assn.": ["Association"]}, and values for the
    three constants. *)
Definition sample_abbreviations : gmap string (string * list string) :=
  CaseInsensitiveDict.setitem ∅ "Assn." ["Association"].
Definition sample_CV_2017 : Z := 2.
Definition sample_FEDERAL_BANKRUPTCY : string := "FB".
Definition sample_PACER_DOCUMENT : Z := 1.

Definition sample_court : Court :=
  {| fjc_court_id := "3"; jurisdiction := "FD" |}.

Definition sample_case (id : Z) (filed : date) (p d : string)
  : FjcIntegratedDatabase :=
  {| pk := id; dataset_source := sample_CV_2017; district := Some sample_court;
     date_filed := filed; docket_number := "1:10-cv-00001";
     plaintiff := p; defendant := d |}.

Definition sample_row (case_name : string) : Row :=
  {| Case_Name := case_name; Date := "06/01/2015"; AO_ID := "3" |}.

Definition day_2015_06_01 : date := {| year := 2015; month := 6; day := 1 |}.
Definition day_2014_03_01 : date := {| year := 2014; month := 3; day := 1 |}.
Definition day_2012_11_30 : date := {| year := 2012; month := 11; day := 30 |}.
Definition day_2010_06_02 : date := {| year := 2010; month := 6; day := 2 |}.
Definition day_2010_06_01 : date := {| year := 2010; month := 6; day := 1 |}.

(** The third filter tuple for the parties 'john smith' and 'doe corp'. *)
Definition sample_third_tuple : filter_tuple :=
  ([Q_AND (Q_lookup F_defendant icontains "doe")
          (Q_lookup F_defendant icontains "corp");
    Q_AND (Q_lookup F_plaintiff icontains "john")
          (Q_lookup F_plaintiff icontains "smith")], []).

Definition sample_document (id : Z) (kind : Z) (text : string) : RECAPDocument :=
  {| rd_pk := id; document_type := kind; rd_description := text;
     pacer_doc_id := "035012345" |}.

Definition sample_entry (id : Z) (text : string) (docs : list RECAPDocument)
  : DocketEntry :=
  {| de_pk := id; de_date_filed := day_2014_03_01; description := text;
     recap_documents := docs |}.

(** Five rows that only the third stage finds for 'John Smith v. Doe
    Corp', and three rows its first stage finds, filed on different days. *)
Definition sample_five_cases : list FjcIntegratedDatabase :=
  [ sample_case 1 day_2014_03_01 "SMITH, JOHN" "CORP DOE";
    sample_case 2 day_2014_03_01 "SMITH, JOHN A." "CORP DOE";
    sample_case 3 day_2012_11_30 "SMITH, JOHN" "CORP DOE INC";
    sample_case 4 day_2012_11_30 "SMITH, JOHN B." "CORP DOE";
    sample_case 5 day_2010_06_02 "SMITH, JOHN" "CORP DOE" ].

Definition sample_three_cases : list FjcIntegratedDatabase :=
  [ sample_case 1 day_2010_06_02 "JOHN SMITH" "DOE CORP";
    sample_case 2 day_2014_03_01 "JOHN SMITH" "DOE CORP";
    sample_case 3 day_2012_11_30 "JOHN SMITH" "DOE CORP" ].

Definition sample_first_tuple : filter_tuple :=
  ([], [(F_plaintiff, iexact, "john smith");
        (F_defendant, iexact, "doe corp")]).

(** Docket entries: an order, a letter, an entry whose text is that of its
    one primary document, an amended memorandum opinion, and an entry
    beginning with 'ordered'. *)
Definition sample_entries : list DocketEntry :=
  [ sample_entry 1 "Order granting motion to dismiss" [];
    sample_entry 2 "Letter from counsel" [];
    sample_entry 3 ""
      [sample_document 31 sample_PACER_DOCUMENT "Memorandum   Opinion";
       sample_document 32 2 "Exhibit A"];
    sample_entry 4 "Amended memorandum opinion and order" [];
    sample_entry 5 "ORDERED that the motion is denied" [] ].

(** Rows of the sheet, options, courts and a docket. *)
Definition sample_FEDERAL_DISTRICT : string := "FD".

Definition sample_sheet_row (case_name day idb student cl cl_student : string)
  : SheetRow :=
  {| lookup_columns := {| Case_Name := case_name; Date := day; AO_ID := "3" |};
     idb_docket_number := idb; student_docket_number := student;
     cl_d_docket_number := cl; cl_d_docket_number_student := cl_student;
     extra_cells := [] |}.

(** A row read from a line with one cell more than the header. *)
Definition sample_long_row (case_name day : string) : SheetRow :=
  {| lookup_columns := {| Case_Name := case_name; Date := day; AO_ID := "3" |};
     idb_docket_number := ""; student_docket_number := "";
     cl_d_docket_number := ""; cl_d_docket_number_student := "";
     extra_cells := ["stray cell"] |}.

(** A sheet whose second row is too long for the header. *)
Definition sample_long_sheet : list SheetRow :=
  [ sample_sheet_row "John Smith v. Doe Corp" "06/01/2015" "" "" "" "";
    sample_long_row "Nobody v. Noone" "03/01/2014";
    sample_sheet_row "Jane Roe v. Acme" "03/01/2014" "" "" "" "" ].

Definition sample_options (first last : Z) (only_log : bool) (name : string)
  : Options :=
  {| offset := first; limit := last; log_only := only_log; task := name |}.

Definition sample_courts : list (string * Court) :=
  [ ("cand", {| fjc_court_id := "03"; jurisdiction := "FD" |});
    ("canb", {| fjc_court_id := "03"; jurisdiction := "FB" |}) ].

Definition sample_dockets : list Docket :=
  [ {| d_pk := 1; d_docket_number := "1:10-cv-00001"; d_court := "cand";
       docket_entries :=
         [ sample_entry 1 "Order granting motion to dismiss"
             [sample_document 11 sample_PACER_DOCUMENT "Order";
              sample_document 12 2 "Exhibit A";
              {| rd_pk := 13; document_type := sample_PACER_DOCUMENT;
                 rd_description := "Sealed order"; pacer_doc_id := "" |}];
           sample_entry 2 "Letter from counsel"
             [sample_document 21 sample_PACER_DOCUMENT "Letter"] ] |} ].

(** Three rows: one that the first stage matches, one with a date that
    cannot be read, one that matches nothing. *)
Definition sample_sheet : list SheetRow :=
  [ sample_sheet_row "John Smith v. Doe Corp" "06/01/2015"
      "1012345" "" "1:10-cv-00001" "";
    sample_sheet_row "Jane Roe v. Acme" "June 1, 2015" "" "1:11-cv-00002" "" "";
    sample_sheet_row "Nobody v. Noone" "03/01/2014" "" "" "" "" ].

Definition sample_readable_sheet : list SheetRow :=
  [ sample_sheet_row "John Smith v. Doe Corp" "06/01/2015"
      "12345" "" "" "1:10-cv-00001";
    sample_sheet_row "Nobody v. Noone" "03/01/2014" "" "1:11-cv-00002" "" "";
    sample_sheet_row "No separator" "not a date" "" "" "" "" ].

(** ** Facts about the Python and query-layer functions *)

Lemma isspace_space : isspace " " = true.
Proof. reflexivity. Qed.

Lemma split_no_space (s : string) : Forall no_space (split s).
Proof.
  induction s as [|c s IH]; simpl; [constructor|].
  destruct (isspace c) eqn:Hc; [exact IH|].
  destruct s as [|c' s'].
  - constructor; [simpl; auto | constructor].
  - destruct (isspace c') eqn:Hc'.
    + constructor; [simpl; auto | exact IH].
    + destruct (split (String c' s')) as [|w ws] eqn:Hs.
      * constructor; [simpl; auto | constructor].
      * inversion IH; subst. constructor; [simpl; auto | assumption].
Qed.

(** ** The staged loop *)

Lemma lookup_loop_broaden (pool : list FjcIntegratedDatabase)
    (pre rest : list filter_tuple) :
  Forall (fun ft => length (qs_filter pool ft) = 0%nat) pre ->
  lookup_loop pool (pre ++ rest) =
    (fst (lookup_loop pool rest),
     (broadening pre ++ snd (lookup_loop pool rest))%list).
Proof.
  induction 1 as [|ft pre Hft Hpre IH]; simpl.
  - destruct (lookup_loop pool rest); reflexivity.
  - unfold qs_count, bind, emit, ret. simpl. rewrite Hft. simpl.
    rewrite IH. reflexivity.
Qed.

Lemma lookup_loop_too_many (pool : list FjcIntegratedDatabase)
    (ft : filter_tuple) (rest : list filter_tuple) :
  (5 <= length (qs_filter pool ft))%nat ->
  lookup_loop pool (ft :: rest) =
    (Returned None,
     [query_count ft (length (qs_filter pool ft));
      logger_warn (Got_too_many_results ft)]).
Proof.
  intros Hn. simpl. unfold qs_count, bind, emit, ret. simpl.
  destruct (length (qs_filter pool ft)) as [|[|[|[|[|n]]]]] eqn:Hl; try lia.
  reflexivity.
Qed.


(** Once the row is read, [lookup_row] is the loop over the five filter
    tuples on the pool [orig_query]. *)
Lemma lookup_row_parsed (row : Row) (table : list FjcIntegratedDatabase)
    (plaintiff defendant : string) (opinion_date : date) (earliest : Z) :
  row_parses row plaintiff defendant opinion_date earliest ->
  lookup_row row table =
    lookup_loop (orig_query row opinion_date earliest table)
      (filter_tuples plaintiff defendant).
Proof.
  intros (Hs & Hd & He). unfold lookup_row. rewrite Hs.
  unfold call, bind. rewrite Hd, He.
  fold (orig_query row opinion_date earliest table).
  destruct (lookup_loop _ _) as [r t]. reflexivity.
Qed.

Lemma nth_error_cut {A} (l : list A) (k : nat) (x : A) :
  nth_error l k = Some x -> l = (firstn k l ++ x :: skipn (S k) l)%list.
Proof.
  revert k; induction l as [|a l IH]; intros [|k] H; simpl in *; try discriminate.
  - injection H as ->. reflexivity.
  - cbn. f_equal. apply IH. exact H.
Qed.

Lemma nth_error_firstn_lt {A} (l : list A) (j k : nat) :
  (j < k)%nat -> nth_error (firstn k l) j = nth_error l j.
Proof.
  revert j k; induction l as [|a l IH]; intros j k H.
  - destruct k; destruct j; reflexivity.
  - destruct k; [lia|]. destruct j; simpl; [reflexivity|]. apply IH. lia.
Qed.

Lemma earlier_stages_empty_firstn (pool : list FjcIntegratedDatabase)
    (tuples : list filter_tuple) (k : nat) :
  earlier_stages_empty pool tuples k ->
  Forall (fun ft => length (qs_filter pool ft) = 0%nat) (firstn k tuples).
Proof.
  intros H. apply List.Forall_forall. intros ft Hin.
  apply In_nth_error in Hin. destruct Hin as [j Hj].
  assert (Hlt : (j < k)%nat).
  { assert (Hl : (j < length (firstn k tuples))%nat)
      by (apply nth_error_Some; congruence).
    rewrite length_firstn in Hl. lia. }
  apply (H j); [exact Hlt|]. rewrite <- Hj. symmetry.
  apply nth_error_firstn_lt. exact Hlt.
Qed.

Lemma queries_app (t1 t2 : list event) :
  queries (t1 ++ t2) = (queries t1 ++ queries t2)%list.
Proof. unfold queries. apply List.filter_app. Qed.

Lemma queries_broadening (tuples : list filter_tuple) :
  queries (broadening tuples) = map (fun ft => query_count ft 0) tuples.
Proof.
  induction tuples as [|ft l IH]; simpl; [reflexivity|].
  f_equal. exact IH.
Qed.

(** ** Ordering of the pool *)

Lemma insert_desc_perm (r : FjcIntegratedDatabase) (l : list FjcIntegratedDatabase) :
  Permutation (insert_desc r l) (r :: l).
Proof.
  induction l as [|x l IH]; simpl; [apply Permutation_refl|].
  destruct (toordinal (date_filed x) <=? toordinal (date_filed r)).
  - apply Permutation_refl.
  - eapply Permutation_trans; [apply perm_skip, IH | apply perm_swap].
Qed.

Lemma insert_desc_sorted (r : FjcIntegratedDatabase) (l : list FjcIntegratedDatabase) :
  sorted_desc l -> sorted_desc (insert_desc r l).
Proof.
  induction l as [|x l IH]; simpl; intros Hs.
  - split; [intros y []|exact I].
  - destruct Hs as [Hx Hl].
    destruct (toordinal (date_filed x) <=? toordinal (date_filed r)) eqn:Hc.
    + apply Z.leb_le in Hc. simpl. repeat split; try assumption.
      intros y [<-|Hy]; [exact Hc|]. specialize (Hx y Hy). lia.
    + apply Z.leb_gt in Hc. simpl. split; [|apply IH, Hl].
      intros y Hy.
      apply (Permutation_in _ (insert_desc_perm r l)) in Hy.
      destruct Hy as [<-|Hy]; [lia|apply Hx, Hy].
Qed.

Lemma order_by_perm (l : list FjcIntegratedDatabase) :
  Permutation (order_by_date_filed_desc l) l.
Proof.
  induction l as [|x l IH]; simpl; [apply Permutation_refl|].
  eapply Permutation_trans; [apply insert_desc_perm|apply perm_skip, IH].
Qed.

Lemma order_by_sorted (l : list FjcIntegratedDatabase) :
  sorted_desc (order_by_date_filed_desc l).
Proof.
  induction l as [|x l IH]; simpl; [exact I|].
  apply insert_desc_sorted, IH.
Qed.



(** ** The decision taken on a stage's count *)

(** C3. When a stage is reached (every stricter stage found nothing) and
    its count is 5 or more, [lookup_row] returns [None] at once: the table
    has received the count queries of the stages up to this one and nothing
    else, so no broader stage is evaluated and no row is fetched. *)
Theorem too_many_results_abandons
    (row : Row) (table : list FjcIntegratedDatabase)
    (plaintiff defendant : string) (opinion_date : date) (earliest : Z)
    (k : nat) (ft : filter_tuple) :
  let pool := orig_query row opinion_date earliest table in
  let tuples := filter_tuples plaintiff defendant in
  row_parses row plaintiff defendant opinion_date earliest ->
  nth_error tuples k = Some ft ->
  earlier_stages_empty pool tuples k ->
  (5 <= length (qs_filter pool ft))%nat ->
  fst (lookup_row row table) = Returned None /\
  queries (snd (lookup_row row table)) =
    (map (fun ft' => query_count ft' 0) (firstn k tuples) ++
     [query_count ft (length (qs_filter pool ft))])%list.
Proof.
  intros pool tuples Hrow Hk Hearlier Hn.
  rewrite (lookup_row_parsed _ _ _ _ _ _ Hrow).
  fold pool. fold tuples.
  rewrite (nth_error_cut _ _ _ Hk) at 1 2.
  rewrite lookup_loop_broaden by (apply earlier_stages_empty_firstn, Hearlier).
  rewrite (lookup_loop_too_many _ _ _ Hn). simpl.
  split; [reflexivity|].
  rewrite queries_app, queries_broadening. reflexivity.
Qed.


(** ** The predicate built by [make_party_q] *)

Lemma Q_holds_q_and (a b : Q) (r : FjcIntegratedDatabase) :
  Q_holds (q_and a b) r = Q_holds a r && Q_holds b r.
Proof.
  unfold q_and. destruct b; destruct a; simpl;
    rewrite ?andb_true_r; reflexivity.
Qed.

Lemma fold_or_holds (f : field) (r : FjcIntegratedDatabase)
    (abbrevs : list string) (q0 : Q) :
  Q_is_empty q0 = false ->
  let q := fold_left (fun q abbrev => q_or q (Q_lookup f icontains abbrev))
             abbrevs q0 in
  Q_is_empty q = false /\
  Q_holds q r =
    Q_holds q0 r ||
    existsb (fun v => lookup_holds icontains (field_value f r) v) abbrevs.
Proof.
  revert q0. induction abbrevs as [|v l IH]; intros q0 Hq0; simpl.
  - split; [exact Hq0|]. rewrite orb_false_r. reflexivity.
  - assert (Hstep : q_or q0 (Q_lookup f icontains v)
                    = Q_OR q0 (Q_lookup f icontains v)).
    { unfold q_or. simpl. rewrite Hq0. reflexivity. }
    rewrite Hstep.
    destruct (IH (Q_OR q0 (Q_lookup f icontains v)) eq_refl) as [He Hh].
    split; [exact He|]. rewrite Hh. simpl. rewrite orb_assoc. reflexivity.
Qed.

Lemma fold_and_holds (r : FjcIntegratedDatabase) (word_q : string -> Q)
    (words : list string) (q0 : Q) :
  Q_holds (fold_left (fun new_q word => q_and new_q (word_q word)) words q0) r =
  Q_holds q0 r && forallb (fun w => Q_holds (word_q w) r) words.
Proof.
  revert q0. induction words as [|w l IH]; intros q0; simpl.
  - rewrite andb_true_r. reflexivity.
  - rewrite IH, Q_holds_q_and, andb_assoc. reflexivity.
Qed.

Lemma forallb_pointwise {A} (p q : A -> bool) (l : list A) :
  (forall x, p x = q x) -> forallb p l = forallb q l.
Proof.
  intros H. induction l as [|x l IH]; simpl; [reflexivity|].
  rewrite H, IH. reflexivity.
Qed.

Lemma make_party_q_holds (party : string) (f : field) (sl : slice)
    (r : FjcIntegratedDatabase) :
  Q_holds (make_party_q party f sl) r =
  forallb (word_holds f r) (getslice (split party) sl).
Proof.
  unfold make_party_q. rewrite fold_and_holds. simpl.
  apply forallb_pointwise. intros w. unfold word_holds.
  destruct (endswith w "." &&
            CaseInsensitiveDict.contains_key CASE_NAME_IABBREVIATIONS w).
  - destruct (fold_or_holds f r
                (CaseInsensitiveDict.getitem CASE_NAME_IABBREVIATIONS w)
                (Q_lookup f icontains w) eq_refl) as [_ H].
    rewrite H. reflexivity.
  - reflexivity.
Qed.

(** C6. The predicate [make_party_q] builds holds of a row exactly when
    every selected word passes its test, the test of a word being: the
    word or one of its expansions is a case-insensitive substring of the
    column when the word ends with a period and is a key of the
    case-insensitive table, the word alone otherwise. Hence a word that is
    such a key is matched by a row containing one of its expansions, whether
    the row contains the word or not. *)
Theorem make_party_q_ands_words_ors_expansions
    (party : string) (f : field) (sl : slice) (r : FjcIntegratedDatabase) :
  Q_holds (make_party_q party f sl) r =
    forallb (word_holds f r) (getslice (split party) sl) /\
  (forall word,
     word_holds f r word =
       if endswith word "." &&
          CaseInsensitiveDict.contains_key CASE_NAME_IABBREVIATIONS word
       then
         lookup_holds icontains (field_value f r) word ||
         existsb (fun v => lookup_holds icontains (field_value f r) v)
           (CaseInsensitiveDict.getitem CASE_NAME_IABBREVIATIONS word)
       else lookup_holds icontains (field_value f r) word) /\
  (forall word key abbrevs abbrev,
     getslice (split party) sl = [word] ->
     endswith word "." = true ->
     CASE_NAME_IABBREVIATIONS !! lower word = Some (key, abbrevs) ->
     In abbrev abbrevs ->
     lookup_holds icontains (field_value f r) abbrev = true ->
     Q_holds (make_party_q party f sl) r = true).
Proof.
  split; [apply make_party_q_holds|]. split.
  - intros word. unfold word_holds.
    destruct (endswith word "." && _); reflexivity.
  - intros word key abbrevs abbrev Hsl Hdot Hkey Hin Hhold.
    rewrite make_party_q_holds, Hsl. simpl. rewrite andb_true_r.
    unfold word_holds, CaseInsensitiveDict.contains_key,
      CaseInsensitiveDict.getitem.
    rewrite Hdot, Hkey. simpl.
    apply orb_true_iff. right. apply existsb_exists.
    exists abbrev. split; assumption.
Qed.

(** ** Stages on parties with few words *)

Lemma lookup_loop_returns (pool : list FjcIntegratedDatabase)
    (tuples : list filter_tuple) :
  exists res, fst (lookup_loop pool tuples) = Returned res.
Proof.
  induction tuples as [|ft rest IH]; simpl.
  - exists None. reflexivity.
  - unfold qs_count, qs_getitem, getitem, bind, emit, ret. simpl.
    destruct (qs_filter pool ft) as [|a [|b [|c [|d [|e l]]]]]; simpl.
    + destruct IH as [res Hres]. exists res.
      destruct (lookup_loop pool rest) as [o t]. exact Hres.
    + exists (Some a). reflexivity.
    + exists (Some a). reflexivity.
    + exists (Some a). reflexivity.
    + exists (Some a). reflexivity.
    + exists None. reflexivity.
Qed.

Lemma lookup_loop_counts_first (pool : list FjcIntegratedDatabase)
    (ft : filter_tuple) (rest : list filter_tuple) :
  exists tr, snd (lookup_loop pool (ft :: rest)) =
             query_count ft (length (qs_filter pool ft)) :: tr.
Proof.
  simpl. unfold qs_count, bind, emit, ret. simpl.
  match goal with
  | |- context [let (r, t') := ?m in _] => destruct m as [r t']
  end.
  eexists. reflexivity.
Qed.

Lemma getslice_first_all {A} (l : list A) (n : nat) :
  (length l < n)%nat -> getslice l {| start := None; stop := Some n |} = l.
Proof.
  intros H. unfold getslice. simpl. rewrite Nat.sub_0_r.
  apply firstn_all2. lia.
Qed.

Lemma getslice_second_none {A} (l : list A) :
  (length l < 2)%nat ->
  getslice l {| start := Some 1%nat; stop := Some 2%nat |} = [].
Proof. destruct l as [|a [|b l]]; simpl; intros H; try lia; reflexivity. Qed.

(** C2, as the code has it. A party with fewer words than the slice of a
    token stage asks for does not make the stage skip, and raises nothing:
    the slice yields the words there are, so the party's predicate is the
    conjunction of the tests of those words, and holds of every row when
    the slice yields none; a stage that is reached, short or not, sends its
    count query to the table, and [lookup_row] returns. *)
Theorem short_party_stage_is_still_evaluated :
  (forall (party : string) (f : field) (r : FjcIntegratedDatabase),
     ((length (split party) < 3)%nat ->
      Q_holds (make_party_q party f {| start := None; stop := Some 3%nat |}) r =
        forallb (word_holds f r) (split party)) /\
     ((length (split party) < 1)%nat ->
      Q_holds (make_party_q party f {| start := None; stop := Some 1%nat |}) r =
        true) /\
     ((length (split party) < 2)%nat ->
      Q_holds (make_party_q party f {| start := Some 1%nat; stop := Some 2%nat |}) r =
        true)) /\
  (forall (row : Row) (table : list FjcIntegratedDatabase)
          (plaintiff defendant : string) (opinion_date : date) (earliest : Z)
          (k : nat) (ft : filter_tuple),
     let pool := orig_query row opinion_date earliest table in
     let tuples := filter_tuples plaintiff defendant in
     row_parses row plaintiff defendant opinion_date earliest ->
     nth_error tuples k = Some ft ->
     earlier_stages_empty pool tuples k ->
     (exists res, fst (lookup_row row table) = Returned res) /\
     In (query_count ft (length (qs_filter pool ft))) (snd (lookup_row row table))).
Proof.
  split.
  - intros party f r. rewrite !make_party_q_holds. repeat split; intros H.
    + rewrite getslice_first_all by exact H. reflexivity.
    + rewrite getslice_first_all by exact H.
      destruct (split party); [reflexivity|simpl in H; lia].
    + rewrite getslice_second_none by exact H. reflexivity.
  - intros row table plaintiff defendant opinion_date earliest k ft pool tuples
      Hrow Hk Hearlier.
    rewrite (lookup_row_parsed _ _ _ _ _ _ Hrow). fold pool. fold tuples.
    split; [apply lookup_loop_returns|].
    rewrite (nth_error_cut _ _ _ Hk) at 1.
    rewrite lookup_loop_broaden by (apply earlier_stages_empty_firstn, Hearlier).
    destruct (lookup_loop_counts_first pool ft (skipn (S k) tuples)) as [tr Htr].
    set (m := lookup_loop pool (ft :: skipn (S k) tuples)) in *.
    cbn [snd]. apply in_or_app. right.
    rewrite Htr. left. reflexivity.
Qed.

(** ** The grammar rules of [filter_des] *)

Ltac one_of_the_words H :=
  repeat match type of H with
         | (_ || _)%bool = true =>
             apply orb_true_iff in H; destruct H as [H|H]
         | String.eqb _ _ = true => apply String.eqb_eq in H; subst
         | false = true => discriminate H
         end.

(** No word belongs to two of the three vocabularies. *)
Lemma vocabulary_disjoint (w : string) :
  (in_list w core_words = true ->
   in_list w prefix_words = false /\ in_list w pre_prefix_words = false) /\
  (in_list w prefix_words = true -> in_list w pre_prefix_words = false).
Proof.
  split; intros H; unfold in_list in H; simpl in H;
    one_of_the_words H; try split; reflexivity.
Qed.

Ltac run_rules :=
  cbv beta iota delta
    [bind ret raise except_IndexError des_rules word_in and_ or_ getitem
     nth_error list_display any existsb app rule_matches orb].

Ltac vocabulary_clash :=
  match goal with
  | H1 : in_list ?w core_words = true,
    H2 : in_list ?w prefix_words = true |- _ =>
      destruct (proj1 (vocabulary_disjoint w) H1); congruence
  | H1 : in_list ?w core_words = true,
    H2 : in_list ?w pre_prefix_words = true |- _ =>
      destruct (proj1 (vocabulary_disjoint w) H1); congruence
  | H1 : in_list ?w prefix_words = true,
    H2 : in_list ?w pre_prefix_words = true |- _ =>
      pose proof (proj2 (vocabulary_disjoint w) H1); congruence
  end.

(** Raising [IndexError] out of the whole list of tests, as the code does,
    and judging each rule on its own give the same verdict on every list
    of words. *)
Lemma des_rules_decision {A} (words : list string) (yes no : A) :
  except_IndexError
    (tests <- list_display (des_rules words);
     if any tests then ret yes else ret no)
    (ret no)
  = ret (if existsb rule_matches (des_rules words) then yes else no).
Proof.
  destruct words as [|w0 [|w1 [|w2 [|w3 rest]]]]; run_rules;
    repeat match goal with
           | |- context [in_list ?w ?v] =>
               destruct (in_list w v) eqn:?; run_rules
           end;
    try reflexivity; vocabulary_clash.
Qed.

Lemma rules_agree (words : list string) :
  existsb rule_matches (des_rules words) = some_rule_holds words.
Proof.
  unfold some_rule_holds, token_in.
  destruct words as [|w0 [|w1 [|w2 [|w3 rest]]]]; run_rules;
    cbv beta iota delta [nth_error];
    repeat match goal with
           | |- context [in_list ?w ?v] =>
               destruct (in_list w v) eqn:?; run_rules
           end;
    reflexivity.
Qed.

Lemma bind_ret_l {A B} (a : A) (k : A -> M B) : bind (ret a) k = k a.
Proof. unfold bind, ret. destruct (k a). reflexivity. Qed.

Lemma filter_des_loop_resolvable (des good_des : list DocketEntry) :
  Forall resolvable des ->
  filter_des_loop des good_des =
    (Returned (good_des ++ List.filter keeps des)%list, []).
Proof.
  intros H. revert good_des.
  induction H as [|de des Hde Hdes IH]; intros good_des.
  - simpl. rewrite app_nil_r. reflexivity.
  - cbn [filter_des_loop List.filter].
    unfold resolvable in Hde. unfold keeps.
    unfold description_text in *. unfold recap_documents_get.
    destruct (String.eqb (description de) "").
    + destruct (List.filter _ (recap_documents de)) as [|rd [|rd' l]];
        try congruence.
      rewrite !bind_ret_l, des_rules_decision, bind_ret_l, IH.
      destruct (existsb rule_matches _); simpl;
        rewrite <- ?app_assoc; reflexivity.
    + rewrite !bind_ret_l, des_rules_decision, bind_ret_l, IH.
      destruct (existsb rule_matches _); simpl;
        rewrite <- ?app_assoc; reflexivity.
Qed.

Lemma filter_des_resolvable (des : list DocketEntry) :
  Forall resolvable des ->
  filter_des des = (Returned (List.filter keeps des), []).
Proof. intros H. unfold filter_des. apply (filter_des_loop_resolvable des [] H). Qed.

(** When every entry has a description that can be read (its own, or its
    one primary document's), [filter_des] keeps exactly the entries of
    which at least one of the four rules holds, in their order; a rule that
    indexes past the last word counts as not matched while the others still
    count, and an entry with no matching rule is left out. *)
Theorem filter_des_keeps_entries_matching_a_rule (des : list DocketEntry) :
  Forall resolvable des ->
  filter_des des = (Returned (List.filter keeps des), []) /\
  (forall de desc,
     description_text de = Some desc ->
     keeps de = existsb rule_matches (des_rules (split (lower desc))) /\
     keeps de = some_rule_holds (split (lower desc))).
Proof.
  intros H. split; [apply filter_des_resolvable, H|].
  intros de desc Hd. unfold keeps. rewrite Hd.
  split; [reflexivity|apply rules_agree].
Qed.

(** C9. When exactly one entry of the docket was filed on the day, it is
    the result, whatever its description and its documents: [filter_des]
    is not run. [filter_des] is run exactly when there are two entries or
    more; with none the row is skipped with a warning. *)
Theorem single_entry_is_kept_unconditionally
    (docket_entries : list DocketEntry) (document_date : date) :
  let des := entries_filed_on docket_entries document_date in
  (forall de, des = [de] ->
     download_documents_good_des docket_entries document_date =
       (Returned (Some [de]), [])) /\
  ((2 <= length des)%nat ->
     download_documents_good_des docket_entries document_date =
       (good_des <- filter_des des; ret (Some good_des))) /\
  (des = [] ->
     download_documents_good_des docket_entries document_date =
       (Returned None, [logger_warn No_docket_entries_found])).
Proof.
  intros des. unfold download_documents_good_des.
  fold (entries_filed_on docket_entries document_date). fold des.
  repeat split.
  - intros de ->. reflexivity.
  - intros H. destruct des as [|a [|b l]]; simpl in H; try lia. reflexivity.
  - intros ->. reflexivity.
Qed.

(** C10. The element 'ordered ' of [core_words] ends with a space, and no
    word produced by [split] contains a space, so no word is equal to it;
    an entry whose description begins with the word 'ordered' is left out
    by [filter_des]. *)
Theorem ordered_with_trailing_space_is_never_a_word :
  In "ordered " core_words /\
  (forall s, ~ In "ordered " (split s)) /\
  (forall des, Forall resolvable des ->
     exists good_des,
       filter_des des = (Returned good_des, []) /\
       forall de desc rest,
         description_text de = Some desc ->
         split (lower desc) = "ordered" :: rest ->
         ~ In de good_des).
Proof.
  split; [simpl; tauto|]. split.
  - intros s Hin.
    pose proof (split_no_space s) as Hs.
    rewrite List.Forall_forall in Hs. specialize (Hs _ Hin).
    simpl in Hs. rewrite isspace_space in Hs.
    destruct Hs as (_ & _ & _ & _ & _ & _ & _ & Hsp & _). discriminate Hsp.
  - intros des Hres. exists (List.filter keeps des).
    split; [apply filter_des_resolvable, Hres|].
    intros de desc rest Hd Hw Hin.
    apply List.filter_In in Hin. destruct Hin as [_ Hk].
    unfold keeps in Hk. rewrite Hd, Hw in Hk.
    run_rules. simpl in Hk. discriminate Hk.
Qed.

(** ** The candidate pool *)

Lemma orig_query_holds_iff (row : Row) (opinion_date : date) (earliest : Z)
    (r : FjcIntegratedDatabase) :
  orig_query_holds (AO_ID row) opinion_date earliest r = true <->
  civil_in_forum row r /\
  earliest <= toordinal (date_filed r) <= toordinal opinion_date.
Proof.
  unfold orig_query_holds, civil_in_forum.
  rewrite !andb_true_iff, negb_true_iff, Z.eqb_eq, !Z.leb_le.
  destruct (district r) as [c|].
  - rewrite String.eqb_eq. split.
    + intros ((((Hs & Hf) & Hle) & Hge) & Hj).
      repeat split; try assumption; try lia.
      exists c. repeat split; try assumption.
      apply String.eqb_neq. exact Hj.
    + intros ((Hs & c' & Hc & Hf & Hj) & Hge & Hle).
      injection Hc as <-.
      repeat split; try assumption. apply String.eqb_neq. exact Hj.
  - split.
    + intros ((((_ & Hf) & _) & _) & _). discriminate Hf.
    + intros ((_ & c' & Hc & _) & _). discriminate Hc.
Qed.

(** C7, as the code has it. The pool every stage filters holds exactly the
    rows of the table that are civil, of the row's court and not of a
    bankruptcy court, and filed in the window from 1825 (365 * 5) days
    before the reference day to the reference day, most recent first. *)
Theorem candidate_pool_is_the_1825_day_window
    (row : Row) (table : list FjcIntegratedDatabase)
    (plaintiff defendant : string) (opinion_date : date) (earliest : Z) :
  let pool := orig_query row opinion_date earliest table in
  row_parses row plaintiff defendant opinion_date earliest ->
  lookup_row row table = lookup_loop pool (filter_tuples plaintiff defendant) /\
  (forall r,
     In r pool <->
     In r table /\ civil_in_forum row r /\
     toordinal opinion_date - 1825 <= toordinal (date_filed r)
       <= toordinal opinion_date) /\
  Permutation pool
    (List.filter (orig_query_holds (AO_ID row) opinion_date earliest) table) /\
  sorted_desc pool.
Proof.
  intros pool Hrow.
  split; [apply (lookup_row_parsed _ _ _ _ _ _ Hrow)|].
  assert (He : earliest = toordinal opinion_date - 1825).
  { destruct Hrow as (_ & _ & He). unfold minus_days in He.
    change (365 * 5) with 1825 in He.
    destruct (1 <=? toordinal opinion_date - 1825); congruence. }
  split; [|split].
  - intros r. unfold pool, orig_query. split.
    + intros Hin. apply (Permutation_in _ (order_by_perm _)) in Hin.
      apply List.filter_In in Hin. destruct Hin as [Hin Hh].
      apply orig_query_holds_iff in Hh. rewrite He in Hh. tauto.
    + intros (Hin & Hc & Hw).
      apply (Permutation_in _ (Permutation_sym (order_by_perm _))).
      apply List.filter_In. split; [exact Hin|].
      apply orig_query_holds_iff. rewrite He. tauto.
  - apply order_by_perm.
  - apply order_by_sorted.
Qed.

(** ** Rows and entries that cannot be resolved *)

(** A case name without the separator: the unpacking raises [ValueError],
    and the handler of that exception logs and returns. *)
Lemma lookup_row_without_separator (row : Row)
    (table : list FjcIntegratedDatabase) :
  partition " v. " (lower (Case_Name row)) = None ->
  lookup_row row table =
    (Returned None, [logger_warn Got_multiple_v_in_the_case_name]).
Proof.
  intros H. unfold lookup_row, split1. rewrite H. reflexivity.
Qed.

(** A case name with the separator, once or more: the text is cut at the
    first occurrence and the lookup goes on. *)
Lemma lookup_row_with_separator (row : Row) (a b : string) :
  partition " v. " (lower (Case_Name row)) = Some (a, b) ->
  unpack2 (split1 (lower (Case_Name row)) " v. ") = Returned (a, b).
Proof. intros H. unfold split1. rewrite H. reflexivity. Qed.

Lemma lookup_loop_none_warns (pool : list FjcIntegratedDatabase)
    (ft : filter_tuple) (rest : list filter_tuple) :
  fst (lookup_loop pool (ft :: rest)) = Returned None ->
  existsb is_warning (snd (lookup_loop pool (ft :: rest))) = true.
Proof.
  cbn [lookup_loop].
  unfold qs_count, qs_getitem, getitem, bind, emit, ret. simpl.
  destruct (qs_filter pool ft) as [|a [|b [|c [|d [|e l]]]]]; simpl;
    try discriminate; try reflexivity.
  destruct (lookup_loop pool rest) as [o t]. reflexivity.
Qed.

(** C8, as the code has it. [lookup_row] returns to its caller, without
    raising, for every row whose date can be read whenever its case name
    can be cut in two, and a row it does not resolve has given rise to a
    warning; [filter_des] returns, without raising and without logging
    anything, for every list of entries whose descriptions can be read,
    the entries it does not keep being passed over in silence. *)
Theorem readable_rows_and_entries_raise_nothing :
  (forall (row : Row) (table : list FjcIntegratedDatabase),
     (forall plaintiff defendant,
        unpack2 (split1 (lower (Case_Name row)) " v. ")
          = Returned (plaintiff, defendant) ->
        exists opinion_date earliest,
          strptime_mdY (Date row) = Returned opinion_date /\
          minus_days opinion_date (365 * 5) = Returned earliest) ->
     exists res,
       fst (lookup_row row table) = Returned res /\
       (res = None ->
        existsb is_warning (snd (lookup_row row table)) = true)) /\
  (forall des : list DocketEntry,
     Forall resolvable des ->
     filter_des des = (Returned (List.filter keeps des), [])).
Proof.
  split; [|apply filter_des_resolvable].
  intros row table Hdate.
  destruct (partition " v. " (lower (Case_Name row))) as [[a b]|] eqn:Hp.
  - pose proof (lookup_row_with_separator row a b Hp) as Hu.
    destruct (Hdate a b Hu) as (o & e & Ho & He).
    rewrite (lookup_row_parsed row table a b o e (conj Hu (conj Ho He))).
    destruct (lookup_loop_returns (orig_query row o e table) (filter_tuples a b))
      as [res Hres].
    exists res. split; [exact Hres|].
    intros ->. apply lookup_loop_none_warns. exact Hres.
  - rewrite (lookup_row_without_separator row table Hp).
    exists None. split; reflexivity.
Qed.

(** ** More on [lookup_row] *)

Lemma orig_query_In (row : Row) (opinion_date : date) (earliest : Z)
    (table : list FjcIntegratedDatabase) (r : FjcIntegratedDatabase) :
  In r (orig_query row opinion_date earliest table) <->
  In r table /\ civil_in_forum row r /\
  earliest <= toordinal (date_filed r) <= toordinal opinion_date.
Proof.
  unfold orig_query. split.
  - intros Hin. apply (Permutation_in _ (order_by_perm _)) in Hin.
    apply List.filter_In in Hin. destruct Hin as [Hin Hh].
    apply orig_query_holds_iff in Hh. tauto.
  - intros (Hin & Hc & Hw).
    apply (Permutation_in _ (Permutation_sym (order_by_perm _))).
    apply List.filter_In. split; [exact Hin|].
    apply orig_query_holds_iff. tauto.
Qed.

Lemma lookup_loop_some (pool : list FjcIntegratedDatabase)
    (tuples : list filter_tuple) (r : FjcIntegratedDatabase) :
  fst (lookup_loop pool tuples) = Returned (Some r) ->
  exists ft, In ft tuples /\ In r pool /\ filter_holds ft r = true.
Proof.
  induction tuples as [|ft rest IH]; [discriminate|].
  cbn [lookup_loop].
  unfold qs_count, qs_getitem, getitem, bind, emit, ret. simpl.
  destruct (qs_filter pool ft) as [|a [|b [|c [|d [|e l]]]]] eqn:Hres; simpl;
    try discriminate;
    try (intros H; injection H as <-; exists ft;
         assert (Ha : In a (qs_filter pool ft)) by (rewrite Hres; left; reflexivity);
         apply List.filter_In in Ha; destruct Ha as [Hp Hf];
         split; [left; reflexivity|split; assumption]).
  intros H. destruct (lookup_loop pool rest) as [o t]. simpl in H.
  destruct (IH H) as (ft' & Hin & Hr). exists ft'. split; [right; exact Hin|exact Hr].
Qed.

(** X1. Whatever [lookup_row] returns is a row of the table: civil, of the
    row's court, no bankruptcy court, filed in the 1825 days up to the
    date of the row, and passing the filter of one of the five stages. *)
Theorem lookup_row_returns_a_pool_row
    (row : Row) (table : list FjcIntegratedDatabase) (r : FjcIntegratedDatabase) :
  fst (lookup_row row table) = Returned (Some r) ->
  exists plaintiff defendant opinion_date,
    unpack2 (split1 (lower (Case_Name row)) " v. ")
      = Returned (plaintiff, defendant) /\
    strptime_mdY (Date row) = Returned opinion_date /\
    In r table /\ civil_in_forum row r /\
    toordinal opinion_date - 1825 <= toordinal (date_filed r)
      <= toordinal opinion_date /\
    exists ft, In ft (filter_tuples plaintiff defendant) /\
               filter_holds ft r = true.
Proof.
  intros H.
  destruct (partition " v. " (lower (Case_Name row))) as [[a b]|] eqn:Hp.
  - pose proof (lookup_row_with_separator row a b Hp) as Hu.
    destruct (strptime_mdY (Date row)) as [o|e] eqn:Ho.
    + destruct (minus_days o (365 * 5)) as [earliest|e] eqn:He.
      * rewrite (lookup_row_parsed row table a b o earliest
                   (conj Hu (conj Ho He))) in H.
        destruct (lookup_loop_some _ _ _ H) as (ft & Hft & Hpool & Hholds).
        apply orig_query_In in Hpool. destruct Hpool as (Hin & Hc & Hw).
        assert (Hearliest : earliest = toordinal o - 1825).
        { unfold minus_days in He. change (365 * 5) with 1825 in He.
          destruct (1 <=? toordinal o - 1825); congruence. }
        exists a, b, o. rewrite Hearliest in Hw.
        split; [exact Hu|]. split; [reflexivity|].
        split; [exact Hin|]. split; [exact Hc|]. split; [exact Hw|].
        exists ft. split; assumption.
      * unfold lookup_row in H. rewrite Hu in H.
        unfold call, bind in H. rewrite Ho, He in H. discriminate H.
    + unfold lookup_row in H. rewrite Hu in H.
      unfold call, bind in H. rewrite Ho in H. discriminate H.
  - rewrite (lookup_row_without_separator row table Hp) in H. discriminate H.
Qed.

(** X2. When none of the five stages finds a row, [lookup_row] returns [None]
    after five count queries answered 0, each followed by its warning, and
    fetches nothing. *)
Theorem lookup_row_all_stages_empty
    (row : Row) (table : list FjcIntegratedDatabase)
    (plaintiff defendant : string) (opinion_date : date) (earliest : Z) :
  row_parses row plaintiff defendant opinion_date earliest ->
  (forall ft, In ft (filter_tuples plaintiff defendant) ->
     qs_filter (orig_query row opinion_date earliest table) ft = []) ->
  lookup_row row table =
    (Returned None, broadening (filter_tuples plaintiff defendant)) /\
  length (queries (snd (lookup_row row table))) = 5%nat.
Proof.
  intros Hrow Hempty.
  rewrite (lookup_row_parsed _ _ _ _ _ _ Hrow).
  assert (Hall : Forall
            (fun ft => length (qs_filter
                         (orig_query row opinion_date earliest table) ft) = 0%nat)
            (filter_tuples plaintiff defendant)).
  { apply List.Forall_forall. intros ft Hft. rewrite (Hempty ft Hft). reflexivity. }
  pose proof (lookup_loop_broaden _ _ [] Hall) as H.
  rewrite app_nil_r in H. rewrite H. cbn [lookup_loop ret fst snd].
  rewrite app_nil_r.
  split; [reflexivity|].
  rewrite queries_broadening. reflexivity.
Qed.

Lemma strip_prefix_refl (s : string) : strip_prefix s s = Some EmptyString.
Proof.
  induction s as [|c s IH]; simpl; [reflexivity|].
  rewrite Ascii.eqb_refl. exact IH.
Qed.

Lemma iexact_then_istartswith (column value : string) :
  lookup_holds iexact column value = true ->
  lookup_holds istartswith column value = true.
Proof.
  unfold lookup_holds, startswith. intros H.
  apply String.eqb_eq in H. rewrite H, strip_prefix_refl. reflexivity.
Qed.

Lemma forallb_firstn_le {A} (p : A -> bool) (l : list A) (n m : nat) :
  (n <= m)%nat -> forallb p (firstn m l) = true -> forallb p (firstn n l) = true.
Proof.
  revert n m. induction l as [|x l IH]; intros n m Hle H.
  - destruct n; reflexivity.
  - destruct n as [|n]; [reflexivity|]. destruct m as [|m]; [lia|].
    cbn [firstn forallb] in *. apply andb_true_iff in H. destruct H as [Hx Hl].
    rewrite Hx. simpl. apply (IH n m); [lia|exact Hl].
Qed.

Lemma filter_length_le {A} (p q : A -> bool) (l : list A) :
  (forall x, p x = true -> q x = true) ->
  (length (List.filter p l) <= length (List.filter q l))%nat.
Proof.
  intros H. induction l as [|x l IH]; simpl; [lia|].
  destruct (p x) eqn:Hp.
  - rewrite (H x Hp). simpl. lia.
  - destruct (q x); simpl; lia.
Qed.

(** X3. The second stage (starts with) keeps every row the first stage
    (equal) finds, and the fourth stage (first word) keeps every row the
    third stage (first three words) finds; so on any pool the looser stage
    counts at least as many rows as the stricter one. *)
Theorem broader_stage_keeps_stricter_matches
    (plaintiff defendant : string) (pool : list FjcIntegratedDatabase)
    (ft1 ft2 ft3 ft4 : filter_tuple) :
  nth_error (filter_tuples plaintiff defendant) 0 = Some ft1 ->
  nth_error (filter_tuples plaintiff defendant) 1 = Some ft2 ->
  nth_error (filter_tuples plaintiff defendant) 2 = Some ft3 ->
  nth_error (filter_tuples plaintiff defendant) 3 = Some ft4 ->
  (forall r, filter_holds ft1 r = true -> filter_holds ft2 r = true) /\
  (forall r, filter_holds ft3 r = true -> filter_holds ft4 r = true) /\
  (length (qs_filter pool ft1) <= length (qs_filter pool ft2))%nat /\
  (length (qs_filter pool ft3) <= length (qs_filter pool ft4))%nat.
Proof.
  intros H1 H2 H3 H4.
  injection H1 as <-. injection H2 as <-. injection H3 as <-. injection H4 as <-.
  assert (H12 : forall r,
            filter_holds
              ([], [(F_plaintiff, iexact, take_str 30 plaintiff);
                    (F_defendant, iexact, take_str 30 defendant)]) r = true ->
            filter_holds
              ([], [(F_plaintiff, istartswith, take_str 30 plaintiff);
                    (F_defendant, istartswith, take_str 30 defendant)]) r = true).
  { intros r. unfold filter_holds. cbn [fst snd forallb].
    rewrite !andb_true_r, !andb_true_l, !andb_true_iff.
    intros [Hp Hd]. split; apply iexact_then_istartswith; assumption. }
  assert (H34 : forall r,
            filter_holds
              ([make_party_q defendant F_defendant
                  {| start := None; stop := Some 3%nat |};
                make_party_q plaintiff F_plaintiff
                  {| start := None; stop := Some 3%nat |}], []) r = true ->
            filter_holds
              ([make_party_q defendant F_defendant
                  {| start := None; stop := Some 1%nat |};
                make_party_q plaintiff F_plaintiff
                  {| start := None; stop := Some 1%nat |}], []) r = true).
  { intros r. unfold filter_holds. cbn [fst snd forallb].
    rewrite !andb_true_r, !andb_true_iff, !make_party_q_holds.
    unfold getslice. cbn [start stop skipn]. rewrite !Nat.sub_0_r.
    intros [Hd Hp].
    split; eapply (forallb_firstn_le _ _ 1 3); try lia; eassumption. }
  split; [exact H12|]. split; [exact H34|].
  split; apply filter_length_le; assumption.
Qed.



(** ** More on [filter_des] *)

Lemma first_unreadable_none (des : list DocketEntry) :
  first_unreadable des = None <-> Forall resolvable des.
Proof.
  induction des as [|de des IH]; cbn [first_unreadable].
  - split; [constructor|reflexivity].
  - assert (Hde : resolvable de <->
                  (if String.eqb (description de) "" then
                     match List.filter
                             (fun rd => document_type rd =? PACER_DOCUMENT)
                             (recap_documents de) with
                     | [_] => True
                     | _ => False
                     end
                   else True)).
    { unfold resolvable, description_text.
      destruct (String.eqb (description de) "").
      - destruct (List.filter _ (recap_documents de)) as [|rd [|rd' l]];
          split; try congruence; try tauto.
      - split; [tauto|congruence]. }
    destruct (String.eqb (description de) "").
    + destruct (List.filter _ (recap_documents de)) as [|rd [|rd' l]].
      * split; [discriminate|]. intros H. inversion H; subst. tauto.
      * rewrite IH. split.
        -- intros H. constructor; [tauto|exact H].
        -- intros H. inversion H; subst. assumption.
      * split; [discriminate|]. intros H. inversion H; subst. tauto.
    + rewrite IH. split.
      * intros H. constructor; [tauto|exact H].
      * intros H. inversion H; subst. assumption.
Qed.

Lemma filter_des_loop_raises (des good_des : list DocketEntry) (e : exn) :
  first_unreadable des = Some e ->
  filter_des_loop des good_des = (Raised e, []).
Proof.
  revert good_des. induction des as [|de des IH]; intros good_des H;
    [discriminate|].
  cbn [first_unreadable] in H. cbn [filter_des_loop].
  unfold recap_documents_get.
  destruct (String.eqb (description de) "").
  - destruct (List.filter _ (recap_documents de)) as [|rd [|rd' l]].
    + injection H as <-. reflexivity.
    + rewrite !bind_ret_l, des_rules_decision, bind_ret_l. apply IH, H.
    + injection H as <-. reflexivity.
  - rewrite !bind_ret_l, des_rules_decision, bind_ret_l. apply IH, H.
Qed.

(** X6. [filter_des] raises exactly when some entry with an empty description
    does not have exactly one primary document: [DoesNotExist] or
    [MultipleObjectsReturned] according to the first such entry, the
    entries kept before it being lost. Otherwise it returns the kept
    entries. Either way it logs nothing. *)
Theorem filter_des_outcome (des : list DocketEntry) :
  filter_des des =
    match first_unreadable des with
    | Some e => (Raised e, [])
    | None => (Returned (List.filter keeps des), [])
    end /\
  (first_unreadable des = None <-> Forall resolvable des).
Proof.
  split; [|apply first_unreadable_none].
  destruct (first_unreadable des) as [e|] eqn:H.
  - apply filter_des_loop_raises, H.
  - apply filter_des_resolvable, first_unreadable_none, H.
Qed.

Lemma token_in_firstn (words : list string) (i n : nat) (vocabulary : list string) :
  (i < n)%nat -> token_in (firstn n words) i vocabulary = token_in words i vocabulary.
Proof.
  intros H. unfold token_in. rewrite nth_error_firstn_lt by exact H. reflexivity.
Qed.

Lemma some_rule_holds_firstn (words : list string) :
  some_rule_holds (firstn 4 words) = some_rule_holds words.
Proof.
  unfold some_rule_holds. rewrite !token_in_firstn by lia. reflexivity.
Qed.

(** X7. Only the first four words of a description count: two entries whose
    lower-cased descriptions begin with the same four words are both kept
    or both left out. *)
Theorem keeps_reads_four_words (de de' : DocketEntry) (desc desc' : string) :
  description_text de = Some desc ->
  description_text de' = Some desc' ->
  firstn 4 (split (lower desc)) = firstn 4 (split (lower desc')) ->
  keeps de = keeps de'.
Proof.
  intros Hd Hd' Hw. unfold keeps. rewrite Hd, Hd', !rules_agree.
  rewrite <- (some_rule_holds_firstn (split (lower desc))), Hw.
  apply some_rule_holds_firstn.
Qed.

Lemma filter_sublist {A} (p : A -> bool) (l : list A) :
  sublist (List.filter p l) l.
Proof.
  induction l as [|x l IH]; simpl; [constructor|].
  destruct (p x); constructor; exact IH.
Qed.

Lemma filter_filter_same {A} (p : A -> bool) (l : list A) :
  List.filter p (List.filter p l) = List.filter p l.
Proof.
  induction l as [|x l IH]; simpl; [reflexivity|].
  destruct (p x) eqn:Hp; simpl; rewrite ?Hp, IH; reflexivity.
Qed.

Lemma Forall_filter_keep {A} (P : A -> Prop) (p : A -> bool) (l : list A) :
  Forall P l -> Forall P (List.filter p l).
Proof.
  induction 1 as [|x l Hx Hl IH]; simpl; [constructor|].
  destruct (p x); [constructor; assumption|assumption].
Qed.

(** X8. When [filter_des] returns, its result is the input with some entries
    removed, the others in their order, and running [filter_des] on that
    result gives it back unchanged. *)
Theorem filter_des_idempotent (des good_des : list DocketEntry) :
  fst (filter_des des) = Returned good_des ->
  sublist good_des des /\
  filter_des good_des = (Returned good_des, []).
Proof.
  intros H.
  destruct (first_unreadable des) as [e|] eqn:Hu.
  - unfold filter_des in H.
    rewrite (filter_des_loop_raises des [] e Hu) in H. discriminate H.
  - apply first_unreadable_none in Hu.
    rewrite (filter_des_resolvable des Hu) in H. injection H as <-.
    split; [apply filter_sublist|].
    rewrite (filter_des_resolvable _ (Forall_filter_keep _ _ _ Hu)).
    rewrite filter_filter_same. reflexivity.
Qed.

(** ** The passes over the sheet *)

Lemma cmd_bind_ret_l {A B} (a : A) (k : A -> Cmd B) :
  cmd_bind (cmd_ret a) k = k a.
Proof. unfold cmd_bind, cmd_ret. destruct (k a). reflexivity. Qed.

Lemma enumerate_from_beyond_limit {A} (options : Options) (rows : list A) (i : Z) :
  limit options <= i -> 0 < limit options ->
  List.filter (fun ir : Z * A => in_window options (fst ir))
    (enumerate_from i rows) = [].
Proof.
  revert i. induction rows as [|row rest IH]; intros i Hi Hl; [reflexivity|].
  cbn [enumerate_from List.filter fst]. unfold in_window at 1.
  replace (limit options <=? 0) with false by (symmetry; apply Z.leb_gt; lia).
  replace (i <? limit options) with false by (symmetry; apply Z.ltb_ge; lia).
  rewrite andb_false_r. apply IH; lia.
Qed.

Lemma for_rows_enumerate_from {A} (options : Options)
    (body : Z -> A -> Cmd unit) (rows : list A) (i : Z) :
  for_rows options body (enumerate_from i rows) =
  run_rows body
    (List.filter (fun ir => in_window options (fst ir)) (enumerate_from i rows)).
Proof.
  revert i. induction rows as [|row rest IH]; intros i; [reflexivity|].
  cbn [enumerate_from for_rows List.filter fst]. unfold in_window at 1.
  destruct (i <? offset options) eqn:Hoff.
  - apply Z.ltb_lt in Hoff.
    replace (offset options <=? i) with false by (symmetry; apply Z.leb_gt; lia).
    cbn [andb]. apply IH.
  - apply Z.ltb_ge in Hoff.
    replace (offset options <=? i) with true by (symmetry; apply Z.leb_le; lia).
    cbn [andb].
    destruct (limit options <=? i) eqn:Hlim; destruct (0 <? limit options) eqn:Hpos;
      cbn [andb].
    + apply Z.leb_le in Hlim. apply Z.ltb_lt in Hpos.
      replace (limit options <=? 0) with false by (symmetry; apply Z.leb_gt; lia).
      replace (i <? limit options) with false by (symmetry; apply Z.ltb_ge; lia).
      cbn [orb]. rewrite enumerate_from_beyond_limit by lia. reflexivity.
    + apply Z.ltb_ge in Hpos.
      replace (limit options <=? 0) with true by (symmetry; apply Z.leb_le; lia).
      cbn [orb run_rows]. rewrite IH. reflexivity.
    + apply Z.leb_gt in Hlim.
      replace (i <? limit options) with true by (symmetry; apply Z.ltb_lt; lia).
      rewrite orb_true_r. cbn [run_rows]. rewrite IH. reflexivity.
    + apply Z.ltb_ge in Hpos.
      replace (limit options <=? 0) with true by (symmetry; apply Z.leb_le; lia).
      cbn [orb run_rows]. rewrite IH. reflexivity.
Qed.

Lemma window_rows_from {A} (options : Options) (rows : list A) (i : Z) :
  map snd
    (List.filter (fun ir : Z * A => in_window options (fst ir))
       (enumerate_from i rows)) =
  skipn (Z.to_nat (offset options - i))
    (if 0 <? limit options
     then firstn (Z.to_nat (limit options - i)) rows
     else rows).
Proof.
  revert i. induction rows as [|row rest IH]; intros i.
  - cbn [enumerate_from List.filter map].
    destruct (0 <? limit options); rewrite ?firstn_nil, skipn_nil; reflexivity.
  - cbn [enumerate_from List.filter fst]. unfold in_window at 1.
    destruct (Z.leb_spec (offset options) i) as [Hoff|Hoff]; cbn [andb].
    + replace (Z.to_nat (offset options - i)) with 0%nat by lia.
      destruct (Z.ltb_spec 0 (limit options)) as [Hpos|Hpos].
      * destruct (Z.leb_spec (limit options) 0) as [Hle|_]; [lia|].
        cbn [orb]. destruct (Z.ltb_spec i (limit options)) as [Hlim|Hlim].
        -- replace (Z.to_nat (limit options - i))
             with (S (Z.to_nat (limit options - (i + 1)))) by lia.
           cbn [map snd firstn skipn]. rewrite IH.
           replace (Z.to_nat (offset options - (i + 1))) with 0%nat by lia.
           destruct (Z.ltb_spec 0 (limit options)); [reflexivity|lia].
        -- replace (Z.to_nat (limit options - i)) with 0%nat by lia.
           rewrite enumerate_from_beyond_limit by lia. reflexivity.
      * destruct (Z.leb_spec (limit options) 0) as [_|Hgt]; [|lia].
        cbn [orb map snd skipn]. rewrite IH.
        replace (Z.to_nat (offset options - (i + 1))) with 0%nat by lia.
        destruct (Z.ltb_spec 0 (limit options)); [lia|reflexivity].
    + replace (Z.to_nat (offset options - i))
        with (S (Z.to_nat (offset options - (i + 1)))) by lia.
      rewrite IH.
      destruct (Z.ltb_spec 0 (limit options)) as [Hpos|Hpos]; [|reflexivity].
      destruct (Z.le_gt_cases (limit options) i) as [Hlim|Hlim].
      * replace (Z.to_nat (limit options - i)) with 0%nat by lia.
        replace (Z.to_nat (limit options - (i + 1))) with 0%nat by lia.
        cbn [firstn]. rewrite !skipn_nil. reflexivity.
      * replace (Z.to_nat (limit options - i))
          with (S (Z.to_nat (limit options - (i + 1)))) by lia.
        reflexivity.
Qed.

(** X9. Each of the three passes runs its loop body on the rows of the window
    and on no other, in order: the rows from index [offset] on and, when
    [limit] is positive, before index [limit]; that is rows[offset:limit],
    the limit counting from the first row of the sheet and not from the
    offset. *)
Theorem passes_handle_the_window
    (options : Options) (rows : list SheetRow)
    (table : list FjcIntegratedDatabase) (courts : list (string * Court))
    (dockets : list Docket) :
  update_csv_with_idb_lookups options rows table =
    (cmd_emit writeheader >>>
     run_rows (update_csv_row options table) (window options rows)) /\
  download_dockets options rows courts =
    run_rows (download_dockets_row options courts) (window options rows) /\
  download_documents options rows courts dockets =
    run_rows (download_documents_row options courts dockets)
      (window options rows) /\
  map snd (window options rows) =
    skipn (Z.to_nat (offset options))
      (if 0 <? limit options then firstn (Z.to_nat (limit options)) rows
       else rows).
Proof.
  unfold update_csv_with_idb_lookups, download_dockets, download_documents,
    window, enumerate.
  rewrite !for_rows_enumerate_from.
  repeat split.
  rewrite window_rows_from, !Z.sub_0_r. reflexivity.
Qed.

Lemma run_rows_returns {A} (body : Z -> A -> Cmd unit) (l : list (Z * A)) :
  (forall i row, In (i, row) l -> fst (body i row) = Returned tt) ->
  run_rows body l =
    (Returned tt, flat_map (fun ir => snd (body (fst ir) (snd ir))) l).
Proof.
  induction l as [|[i row] l IH]; intros H; [reflexivity|].
  cbn [run_rows flat_map fst snd]. unfold cmd_bind.
  pose proof (H i row (or_introl eq_refl)) as Hb.
  destruct (body i row) as [o t]. simpl in Hb. subst o.
  rewrite IH by (intros j r Hin; apply H; right; exact Hin). reflexivity.
Qed.

Lemma run_rows_raises {A} (body : Z -> A -> Cmd unit)
    (pre post : list (Z * A)) (i : Z) (row : A) (e : exn) :
  (forall j r, In (j, r) pre -> fst (body j r) = Returned tt) ->
  fst (body i row) = Raised e ->
  run_rows body (pre ++ (i, row) :: post) =
    (Raised e,
     (flat_map (fun ir => snd (body (fst ir) (snd ir))) pre
      ++ snd (body i row))%list).
Proof.
  induction pre as [|[j r] pre IH]; intros Hpre Hbad.
  - cbn [app run_rows flat_map]. unfold cmd_bind.
    destruct (body i row) as [o t]. simpl in Hbad. subst o. reflexivity.
  - cbn [app run_rows flat_map fst snd]. unfold cmd_bind.
    pose proof (Hpre j r (or_introl eq_refl)) as Hb.
    destruct (body j r) as [o t]. simpl in Hb. subst o.
    rewrite IH by (try (intros k r' Hin; apply Hpre; right; exact Hin); assumption).
    rewrite app_assoc. reflexivity.
Qed.

Lemma run_rows_event {A} (body : Z -> A -> Cmd unit) (l : list (Z * A))
    (ev : command_event) :
  In ev (snd (run_rows body l)) ->
  exists i row, In (i, row) l /\ In ev (snd (body i row)).
Proof.
  induction l as [|[i row] l IH]; [intros []|].
  cbn [run_rows]. unfold cmd_bind.
  destruct (body i row) as [[u|e] t] eqn:Hb.
  - destruct (run_rows body l) as [o t'] eqn:Hr. cbn [snd] in *.
    intros Hin. apply in_app_or in Hin. destruct Hin as [Hin|Hin].
    + exists i, row. split; [left; reflexivity|]. rewrite Hb. exact Hin.
    + destruct (IH Hin) as (j & r & Hl & Hev).
      exists j, r. split; [right; exact Hl|exact Hev].
  - cbn [snd]. intros Hin. exists i, row.
    split; [left; reflexivity|]. rewrite Hb. exact Hin.
Qed.


Lemma written_app (t1 t2 : list command_event) :
  written (t1 ++ t2) = (written t1 ++ written t2)%list.
Proof. unfold written. apply flat_map_app. Qed.

Lemma written_core (t : list event) : written (map core t) = [].
Proof. induction t as [|ev t IH]; [reflexivity|exact IH]. Qed.

(** What the body of the annotating loop does with one row. *)
Lemma update_csv_row_outcome (options : Options)
    (table : list FjcIntegratedDatabase) (i : Z) (row : SheetRow) :
  update_csv_row options table i row =
    match fst (lookup_row (lookup_columns row) table) with
    | Returned result =>
        if log_only options then
          (Returned tt,
           (info_doing_row_with_contents row
            :: map core (snd (lookup_row (lookup_columns row) table))
            ++ [info_result result])%list)
        else
          match extra_cells row with
          | [] =>
              (Returned tt,
               (info_doing_row_with_contents row
                :: map core (snd (lookup_row (lookup_columns row) table))
                ++ [info_result result;
                    writerow row (annotation_of table row)])%list)
          | _ :: _ =>
              (Raised ValueError,
               (info_doing_row_with_contents row
                :: map core (snd (lookup_row (lookup_columns row) table))
                ++ [info_result result])%list)
          end
    | Raised e =>
        (Raised e,
         info_doing_row_with_contents row
         :: map core (snd (lookup_row (lookup_columns row) table)))
    end.
Proof.
  unfold update_csv_row, DictWriter_writerow, annotation_of, cmd_core,
    cmd_bind, cmd_emit, cmd_ret, cmd_raise.
  destruct (lookup_row (lookup_columns row) table) as [[result|e] t].
  - cbn [fst snd app]. destruct (log_only options); cbn [negb app];
      [destruct result; reflexivity|].
    destruct (extra_cells row); destruct result; reflexivity.
  - reflexivity.
Qed.

Lemma update_csv_row_clean (options : Options)
    (table : list FjcIntegratedDatabase) (i : Z) (row : SheetRow)
    (res : option FjcIntegratedDatabase) :
  fst (lookup_row (lookup_columns row) table) = Returned res ->
  writes_cleanly options row ->
  fst (update_csv_row options table i row) = Returned tt /\
  written (snd (update_csv_row options table i row)) =
    (if log_only options then [] else [(row, annotation_of table row)]) /\
  (forall row',
     In (info_doing_row_with_contents row')
        (snd (update_csv_row options table i row)) -> row' = row).
Proof.
  intros Hres Hclean. rewrite update_csv_row_outcome, Hres.
  assert (Hinfo : forall row' (t : list event) (tail : list command_event),
            (forall ev, In ev tail -> ev <> info_doing_row_with_contents row') ->
            In (info_doing_row_with_contents row')
               (info_doing_row_with_contents row :: map core t ++ tail) ->
            row' = row).
  { intros row' t tail Htail [H|H]; [congruence|].
    apply in_app_or in H. destruct H as [H|H].
    - apply in_map_iff in H. destruct H as (x & Hx & _). discriminate.
    - exfalso. exact (Htail _ H eq_refl). }
  destruct (log_only options) eqn:Hlog.
  - cbn [fst snd]. split; [reflexivity|]. split.
    + change (written (info_doing_row_with_contents row :: ?t)) with (written t).
      rewrite written_app, written_core. reflexivity.
    + intros row' Hin. apply (Hinfo row' (snd (lookup_row (lookup_columns row) table))
               [info_result res]); [|exact Hin].
      intros ev [<-|[]] Habs. discriminate Habs.
  - destruct Hclean as [Hc|Hc]; [congruence|]. rewrite Hc.
    cbn [fst snd]. split; [reflexivity|]. split.
    + change (written (info_doing_row_with_contents row :: ?t)) with (written t).
      rewrite written_app, written_core. reflexivity.
    + intros row' Hin.
      apply (Hinfo row' (snd (lookup_row (lookup_columns row) table))
               [info_result res; writerow row (annotation_of table row)]);
        [|exact Hin].
      intros ev [<-|[<-|[]]] Habs; discriminate Habs.
Qed.

Lemma update_csv_row_fails (options : Options)
    (table : list FjcIntegratedDatabase) (i : Z) (row : SheetRow) (e : exn) :
  fails_with options table row e ->
  fst (update_csv_row options table i row) = Raised e /\
  written (snd (update_csv_row options table i row)) = [] /\
  (forall row',
     In (info_doing_row_with_contents row')
        (snd (update_csv_row options table i row)) -> row' = row).
Proof.
  intros [Hraise|((res & Hres) & Hlog & Hextra & ->)];
    rewrite update_csv_row_outcome.
  - rewrite Hraise. cbn [fst snd]. split; [reflexivity|]. split.
    + change (written (info_doing_row_with_contents row :: ?t)) with (written t).
      apply written_core.
    + intros row' [H|H]; [congruence|].
      apply in_map_iff in H. destruct H as (x & Hx & _). discriminate.
  - rewrite Hres, Hlog.
    destruct (extra_cells row) as [|cell cells]; [congruence|].
    cbn [fst snd]. split; [reflexivity|]. split.
    + change (written (info_doing_row_with_contents row :: ?t)) with (written t).
      rewrite written_app, written_core. reflexivity.
    + intros row' [H|H]; [congruence|].
      apply in_app_or in H. destruct H as [H|[H|[]]]; [|discriminate].
      apply in_map_iff in H. destruct H as (x & Hx & _). discriminate.
Qed.

Lemma written_update_csv_rows (options : Options)
    (table : list FjcIntegratedDatabase) (l : list (Z * SheetRow)) :
  (forall i row, In (i, row) l ->
     (exists res, fst (lookup_row (lookup_columns row) table) = Returned res) /\
     writes_cleanly options row) ->
  (forall i row, In (i, row) l ->
     fst (update_csv_row options table i row) = Returned tt) /\
  written (flat_map
             (fun ir => snd (update_csv_row options table (fst ir) (snd ir))) l) =
    (if log_only options then []
     else map (fun ir => (snd ir, annotation_of table (snd ir))) l) /\
  (forall row',
     In (info_doing_row_with_contents row')
        (flat_map
           (fun ir => snd (update_csv_row options table (fst ir) (snd ir))) l) ->
     In row' (map snd l)).
Proof.
  intros H. split; [|split].
  - intros i row Hin. destruct (H i row Hin) as [[res Hres] Hclean].
    exact (proj1 (update_csv_row_clean options table i row res Hres Hclean)).
  - induction l as [|[i row] l IH].
    + destruct (log_only options); reflexivity.
    + cbn [flat_map map fst snd]. rewrite written_app.
      rewrite IH by (intros j r Hin; apply (H j); right; exact Hin).
      destruct (H i row (or_introl eq_refl)) as [[res Hres] Hclean].
      destruct (update_csv_row_clean options table i row res Hres Hclean)
        as (_ & Hw & _).
      rewrite Hw. destruct (log_only options); reflexivity.
  - intros row' Hin. apply in_flat_map in Hin.
    destruct Hin as ([j r] & Hjr & Hev). cbn [fst snd] in Hev.
    destruct (H j r Hjr) as [[res Hres] Hclean].
    destruct (update_csv_row_clean options table j r res Hres Hclean)
      as (_ & _ & Hinfo).
    rewrite (Hinfo row' Hev). apply in_map_iff. exists (j, r).
    split; [reflexivity|exact Hjr].
Qed.

Lemma update_csv_window (options : Options) (rows : list SheetRow)
    (table : list FjcIntegratedDatabase) :
  update_csv_with_idb_lookups options rows table =
    (cmd_emit writeheader >>>
     run_rows (update_csv_row options table) (window options rows)).
Proof.
  unfold update_csv_with_idb_lookups, window, enumerate.
  rewrite for_rows_enumerate_from. reflexivity.
Qed.

(** X10. When, for every row of the window, the lookup returns and the row
    can be written (it holds no cell beyond the header, or [log_only] is
    set), [update_csv_with_idb_lookups] returns, having written the header
    first and then, unless [log_only] is set, one row per row of the
    window, in order, with the three added columns filled exactly for the
    rows that [lookup_row] matched. *)
Theorem update_csv_writes_the_window
    (options : Options) (rows : list SheetRow)
    (table : list FjcIntegratedDatabase) :
  (forall i row, In (i, row) (window options rows) ->
     (exists res, fst (lookup_row (lookup_columns row) table) = Returned res) /\
     writes_cleanly options row) ->
  fst (update_csv_with_idb_lookups options rows table) = Returned tt /\
  hd_error (snd (update_csv_with_idb_lookups options rows table))
    = Some writeheader /\
  written (snd (update_csv_with_idb_lookups options rows table)) =
    if log_only options then []
    else map (fun ir => (snd ir, annotation_of table (snd ir)))
           (window options rows).
Proof.
  intros H. rewrite update_csv_window.
  destruct (written_update_csv_rows options table _ H) as (Hret & Hw & _).
  rewrite (run_rows_returns _ _ Hret).
  unfold cmd_bind, cmd_emit. cbn [fst snd app hd_error].
  repeat split. exact Hw.
Qed.

(** X11. [update_csv_with_idb_lookups] stops at the first row of the
    window that fails, with its exception: the one [lookup_row] raises on
    it (its date cannot be read), or the [ValueError] of the writer when
    the row is too long for the header and [log_only] is not set. The rows
    of the window before it have been looked up and, unless [log_only] is
    set, written; the failing row is not written; the rows after it are
    not looked at. *)
Theorem update_csv_stops_at_the_first_unreadable_row
    (options : Options) (rows : list SheetRow)
    (table : list FjcIntegratedDatabase)
    (pre post : list (Z * SheetRow)) (i : Z) (bad : SheetRow) (e : exn) :
  window options rows = (pre ++ (i, bad) :: post)%list ->
  (forall j row, In (j, row) pre ->
     (exists res, fst (lookup_row (lookup_columns row) table) = Returned res) /\
     writes_cleanly options row) ->
  fails_with options table bad e ->
  fst (update_csv_with_idb_lookups options rows table) = Raised e /\
  written (snd (update_csv_with_idb_lookups options rows table)) =
    (if log_only options then []
     else map (fun ir => (snd ir, annotation_of table (snd ir))) pre) /\
  (forall row,
     In (info_doing_row_with_contents row)
        (snd (update_csv_with_idb_lookups options rows table)) ->
     In row (map snd pre) \/ row = bad).
Proof.
  intros Hwin Hpre Hbad. rewrite update_csv_window, Hwin.
  destruct (written_update_csv_rows options table _ Hpre) as (Hret & Hw & Hinfo).
  destruct (update_csv_row_fails options table i bad e Hbad)
    as (Hb & Hbw & Hbinfo).
  rewrite (run_rows_raises _ _ _ _ _ _ Hret Hb).
  unfold cmd_bind, cmd_emit. cbn [fst snd app].
  split; [reflexivity|]. split.
  - change (written (writeheader :: ?t)) with (written t).
    rewrite written_app, Hw, Hbw, app_nil_r. reflexivity.
  - intros row [Hin|Hin]; [discriminate|].
    apply in_app_or in Hin. destruct Hin as [Hin|Hin].
    + left. exact (Hinfo row Hin).
    + right. exact (Hbinfo row Hin).
Qed.

Lemma run_rows_filtered {A} (p : command_event -> bool)
    (b1 b2 : Z -> A -> Cmd unit) (l : list (Z * A)) :
  (forall i row, In (i, row) l ->
     fst (b1 i row) = fst (b2 i row) /\
     snd (b1 i row) = List.filter p (snd (b2 i row))) ->
  fst (run_rows b1 l) = fst (run_rows b2 l) /\
  snd (run_rows b1 l) = List.filter p (snd (run_rows b2 l)).
Proof.
  induction l as [|[i row] l IH]; intros H; [split; reflexivity|].
  destruct IH as [IHf IHs];
    [intros j r Hin; apply H; right; exact Hin|].
  cbn [run_rows]. unfold cmd_bind.
  destruct (H i row (or_introl eq_refl)) as [Hf Hs].
  destruct (b1 i row) as [o1 t1], (b2 i row) as [o2 t2].
  cbn [fst snd] in Hf, Hs. subst o1 t1.
  destruct o2 as [u|e]; [|split; reflexivity].
  destruct (run_rows b1 l) as [r1 s1], (run_rows b2 l) as [r2 s2].
  cbn [fst snd] in *. subst r1 s1.
  split; [reflexivity|]. rewrite List.filter_app. reflexivity.
Qed.

Lemma run_rows_all_returned {A} (body : Z -> A -> Cmd unit) (l : list (Z * A)) :
  fst (run_rows body l) = Returned tt ->
  forall i row, In (i, row) l -> fst (body i row) = Returned tt.
Proof.
  induction l as [|[j r] l IH]; [intros _ i row []|].
  cbn [run_rows]. unfold cmd_bind.
  destruct (body j r) as [[u|e] t] eqn:Hb; [|discriminate].
  destruct (run_rows body l) as [o t'] eqn:Hr. cbn [fst] in *.
  intros H i row [Hin|Hin].
  - injection Hin as <- <-. rewrite Hb. destruct u. reflexivity.
  - apply IH; assumption.
Qed.

Lemma filter_map_core (t : list event) :
  List.filter (fun ev => negb (is_writerow ev)) (map core t) = map core t.
Proof.
  induction t as [|ev t IH]; [reflexivity|].
  cbn [map List.filter is_writerow negb]. rewrite IH. reflexivity.
Qed.

Lemma log_only_row (options : Options) (table : list FjcIntegratedDatabase)
    (i : Z) (row : SheetRow) :
  extra_cells row = [] ->
  fst (update_csv_row (with_log_only true options) table i row) =
  fst (update_csv_row (with_log_only false options) table i row) /\
  snd (update_csv_row (with_log_only true options) table i row) =
  List.filter (fun ev => negb (is_writerow ev))
    (snd (update_csv_row (with_log_only false options) table i row)).
Proof.
  intros Hextra. rewrite !update_csv_row_outcome.
  cbn [with_log_only log_only]. rewrite Hextra.
  destruct (fst (lookup_row (lookup_columns row) table)) as [res|e];
    cbn [fst snd List.filter is_writerow negb]; split; try reflexivity.
  - rewrite List.filter_app, filter_map_core. reflexivity.
  - rewrite filter_map_core. reflexivity.
Qed.

Lemma log_only_run (options : Options) (table : list FjcIntegratedDatabase)
    (rows : list SheetRow) :
  (forall i row, In (i, row) (window options rows) -> extra_cells row = []) ->
  fst (update_csv_with_idb_lookups (with_log_only true options) rows table) =
  fst (update_csv_with_idb_lookups (with_log_only false options) rows table) /\
  snd (update_csv_with_idb_lookups (with_log_only true options) rows table) =
  List.filter (fun ev => negb (is_writerow ev))
    (snd (update_csv_with_idb_lookups (with_log_only false options) rows table)).
Proof.
  intros Hextra. rewrite !update_csv_window.
  change (window (with_log_only true options) rows) with (window options rows).
  change (window (with_log_only false options) rows) with (window options rows).
  destruct (run_rows_filtered (fun ev => negb (is_writerow ev))
              (update_csv_row (with_log_only true options) table)
              (update_csv_row (with_log_only false options) table)
              (window options rows)) as [Hf Hs].
  { intros i row Hin. apply log_only_row. exact (Hextra i row Hin). }
  unfold cmd_bind, cmd_emit.
  destruct (run_rows (update_csv_row (with_log_only true options) table) _)
    as [r1 s1].
  destruct (run_rows (update_csv_row (with_log_only false options) table) _)
    as [r2 s2].
  cbn [fst snd] in *. subst r1 s1. split; reflexivity.
Qed.

Lemma log_only_writes_nothing (options : Options)
    (table : list FjcIntegratedDatabase) (l : list (Z * SheetRow)) :
  written
    (snd (run_rows (update_csv_row (with_log_only true options) table) l)) = [].
Proof.
  induction l as [|[i row] l IH]; [reflexivity|].
  cbn [run_rows]. unfold cmd_bind.
  assert (Hrow : written
            (snd (update_csv_row (with_log_only true options) table i row)) = []).
  { rewrite update_csv_row_outcome. cbn [with_log_only log_only].
    destruct (fst (lookup_row (lookup_columns row) table)) as [res|e];
      cbn [snd];
      change (written (info_doing_row_with_contents row :: ?t)) with (written t);
      rewrite ?written_app, written_core; reflexivity. }
  destruct (update_csv_row (with_log_only true options) table i row)
    as [[u|e] t]; cbn [snd] in Hrow |- *; [|exact Hrow].
  destruct (run_rows _ l) as [o t']. cbn [snd] in IH |- *.
  rewrite written_app, Hrow, IH. reflexivity.
Qed.

(** X12. Under [log_only] no row is ever written, whatever the rows
    are. When no row of the window is too long for the header, [log_only]
    changes nothing else: the pass returns or raises as without it and
    leaves the same events (the header, the log records, the queries to
    the table) except for the written rows. The same holds whenever the
    pass without [log_only] returns. *)
Theorem log_only_only_withholds_the_rows
    (options : Options) (rows : list SheetRow)
    (table : list FjcIntegratedDatabase) :
  let quiet := update_csv_with_idb_lookups (with_log_only true options) rows table in
  let full := update_csv_with_idb_lookups (with_log_only false options) rows table in
  written (snd quiet) = [] /\
  ((forall i row, In (i, row) (window options rows) -> extra_cells row = []) ->
   fst quiet = fst full /\
   snd quiet = List.filter (fun ev => negb (is_writerow ev)) (snd full)) /\
  (fst full = Returned tt ->
   fst quiet = Returned tt /\
   snd quiet = List.filter (fun ev => negb (is_writerow ev)) (snd full)).
Proof.
  intros quiet full. split; [|split].
  - unfold quiet. rewrite update_csv_window.
    pose proof (log_only_writes_nothing options table
                  (window (with_log_only true options) rows)) as Hw.
    unfold cmd_bind, cmd_emit.
    destruct (run_rows _ _) as [o t]. cbn [snd] in Hw |- *. exact Hw.
  - intros Hextra. exact (log_only_run options table rows Hextra).
  - intros Hfull.
    assert (Hextra : forall i row, In (i, row) (window options rows) ->
                                   extra_cells row = []).
    { intros i row Hin. unfold full in Hfull.
      rewrite update_csv_window in Hfull.
      change (window (with_log_only false options) rows)
        with (window options rows) in Hfull.
      unfold cmd_bind, cmd_emit in Hfull.
      destruct (run_rows (update_csv_row (with_log_only false options) table)
                  (window options rows)) as [o t] eqn:Hrun.
      cbn [fst] in Hfull. subst o.
      assert (Hrun' : fst (run_rows
                        (update_csv_row (with_log_only false options) table)
                        (window options rows)) = Returned tt)
        by (rewrite Hrun; reflexivity).
      pose proof (run_rows_all_returned _ _ Hrun' i row Hin) as Hb.
      rewrite update_csv_row_outcome in Hb. cbn [with_log_only log_only] in Hb.
      destruct (fst (lookup_row (lookup_columns row) table)); [|discriminate].
      destruct (extra_cells row); [reflexivity|discriminate]. }
    destruct (log_only_run options table rows Hextra) as [Hf Hs].
    fold quiet in Hf, Hs. fold full in Hf, Hs.
    split; [rewrite Hf; exact Hfull|exact Hs].
Qed.

(** ** [download_dockets] *)

Lemma rjust_length (s : string) (width : nat) (c : ascii) :
  String.length (rjust s width c) = Nat.max width (String.length s).
Proof.
  unfold rjust.
  assert (H : forall n, String.length (fold_right String s (repeat c n))
                        = (n + String.length s)%nat).
  { induction n as [|n IH]; simpl; [reflexivity|]. rewrite IH. reflexivity. }
  rewrite H. lia.
Qed.

Lemma Court_objects_get_returned (courts : list (string * Court))
    (court_id kind : string) (c : string * Court) :
  Court_objects_get courts court_id kind = Returned c ->
  In c courts /\ fjc_court_id (snd c) = court_id /\ jurisdiction (snd c) = kind.
Proof.
  unfold Court_objects_get.
  destruct (List.filter _ courts) as [|c' [|c'' l]] eqn:Hf; try discriminate.
  intros H. injection H as <-.
  assert (Hin : In c' (List.filter
            (fun c => String.eqb (fjc_court_id (snd c)) court_id &&
                      String.eqb (jurisdiction (snd c)) kind) courts))
    by (rewrite Hf; left; reflexivity).
  apply List.filter_In in Hin. destruct Hin as [Hin Hb].
  apply andb_true_iff in Hb. destruct Hb as [H1 H2].
  apply String.eqb_eq in H1. apply String.eqb_eq in H2. tauto.
Qed.


(** What the body of the loop of [download_dockets] does with one row. *)
Lemma download_dockets_row_outcome (options : Options)
    (courts : list (string * Court)) (i : Z) (row : SheetRow) :
  download_dockets_row options courts i row =
    if wants_docket options row then
      match court_of courts row with
      | Returned c =>
          (Returned tt,
           [info_doing_row i row;
            apply_async_docket (docket_number_of row) (fst c)
              (Case_Name (lookup_columns row)) [TAG_NAME]])
      | Raised e => (Raised e, [info_doing_row i row])
      end
    else (Returned tt, [info_doing_row i row]).
Proof.
  unfold download_dockets_row, wants_docket, docket_number_of, court_of,
    cmd_bind, cmd_emit, cmd_ret, cmd_call.
  destruct (String.eqb (idb_docket_number row) ""); cbn [negb].
  - destruct (String.eqb (student_docket_number row) ""); cbn [negb];
      [reflexivity|].
    destruct (Court_objects_get _ _ _); reflexivity.
  - destruct (String.eqb (task options) "download_student_dockets"); cbn [negb];
      [reflexivity|].
    destruct (Court_objects_get _ _ _); reflexivity.
Qed.

Lemma download_dockets_window (options : Options) (rows : list SheetRow)
    (courts : list (string * Court)) :
  download_dockets options rows courts =
    run_rows (download_dockets_row options courts) (window options rows).
Proof.
  unfold download_dockets, window, enumerate.
  apply for_rows_enumerate_from.
Qed.

(** X13. Every docket download that [download_dockets] queues comes from a row
    of the window: it carries that row's case name and the tag of the
    project, the primary key of the one federal district court whose FJC
    identifier is the row's, padded to two digits, and as docket number
    either the row's IDB number padded with zeros to at least seven
    characters or, for a row without IDB number, the student's number; it
    is never empty, and in the pass for the students' numbers it never
    comes from a row that has an IDB number. *)
Theorem queued_dockets_come_from_rows_with_a_number
    (options : Options) (rows : list SheetRow) (courts : list (string * Court))
    (number court_id case : string) (tags : list string) :
  In (apply_async_docket number court_id case tags)
     (snd (download_dockets options rows courts)) ->
  exists i row c,
    In (i, row) (window options rows) /\
    case = Case_Name (lookup_columns row) /\ tags = [TAG_NAME] /\
    In c courts /\ court_id = fst c /\
    fjc_court_id (snd c) = rjust (AO_ID (lookup_columns row)) 2 "0" /\
    jurisdiction (snd c) = FEDERAL_DISTRICT /\
    number <> "" /\
    ((idb_docket_number row <> "" /\
      number = rjust (idb_docket_number row) 7 "0" /\
      (7 <= String.length number)%nat /\
      task options <> "download_student_dockets") \/
     (idb_docket_number row = "" /\ number = student_docket_number row)).
Proof.
  rewrite download_dockets_window. intros Hin.
  destruct (run_rows_event _ _ _ Hin) as (i & row & Hw & Hev).
  rewrite download_dockets_row_outcome in Hev.
  destruct (wants_docket options row) eqn:Hwants.
  - destruct (court_of courts row) as [c|e] eqn:Hc.
    + destruct Hev as [Hev|[Hev|[]]]; [discriminate|].
      injection Hev as <- <- <- <-.
      destruct (Court_objects_get_returned _ _ _ _ Hc) as (Hcin & Hid & Hj).
      exists i, row, c. repeat split; try assumption.
      * unfold docket_number_of, wants_docket in *.
        destruct (String.eqb_spec (idb_docket_number row) "") as [Hidb|Hidb];
          cbn [negb] in *.
        -- destruct (String.eqb_spec (student_docket_number row) "");
             [discriminate|assumption].
        -- intros Hempty.
           pose proof (rjust_length (idb_docket_number row) 7 "0") as Hl.
           rewrite Hempty in Hl. simpl in Hl. lia.
      * unfold docket_number_of, wants_docket in *.
        destruct (String.eqb_spec (idb_docket_number row) "") as [Hidb|Hidb];
          cbn [negb] in *.
        -- right. split; [exact Hidb|reflexivity].
        -- left. split; [exact Hidb|]. split; [reflexivity|].
           split; [rewrite rjust_length; lia|].
           destruct (String.eqb_spec (task options) "download_student_dockets");
             [discriminate|assumption].
    + destruct Hev as [Hev|[]]. discriminate.
  - destruct Hev as [Hev|[]]. discriminate.
Qed.

Lemma docket_jobs_app (t1 t2 : list command_event) :
  docket_jobs (t1 ++ t2) = (docket_jobs t1 ++ docket_jobs t2)%list.
Proof. unfold docket_jobs. apply flat_map_app. Qed.

Lemma docket_jobs_of_rows (options : Options) (courts : list (string * Court))
    (l : list (Z * SheetRow)) :
  (forall i row, In (i, row) l -> wants_docket options row = true ->
     exists c, court_of courts row = Returned c) ->
  (forall i row, In (i, row) l ->
     fst (download_dockets_row options courts i row) = Returned tt) /\
  docket_jobs
    (flat_map (fun ir => snd (download_dockets_row options courts (fst ir) (snd ir)))
       l) =
  flat_map (fun ir => docket_job_of courts (snd ir))
    (List.filter (fun ir => wants_docket options (snd ir)) l).
Proof.
  intros H. split.
  - intros i row Hin. rewrite download_dockets_row_outcome.
    destruct (wants_docket options row) eqn:Hw; [|reflexivity].
    destruct (H i row Hin Hw) as [c Hc]. rewrite Hc. reflexivity.
  - induction l as [|[i row] l IH]; [reflexivity|].
    cbn [flat_map fst snd List.filter]. rewrite docket_jobs_app.
    rewrite IH by (intros j r Hin Hw; apply (H j r); [right; exact Hin|exact Hw]).
    rewrite download_dockets_row_outcome.
    destruct (wants_docket options row) eqn:Hw; [|reflexivity].
    destruct (H i row (or_introl eq_refl) Hw) as [c Hc].
    cbn [flat_map snd]. unfold docket_job_of. rewrite Hc. reflexivity.
Qed.


(** ** [download_documents] *)

Lemma download_documents_rds_outcome (options : Options)
    (rds : list RECAPDocument) :
  fst (download_documents_rds options rds) = Returned tt /\
  forall ev, In ev (snd (download_documents_rds options rds)) ->
    exists r, In r rds /\
      ((pacer_doc_id r = "" /\ ev = warn_unable_to_get_pacer_doc_id (rd_pk r)) \/
       (pacer_doc_id r <> "" /\ task options = "add_extra_tags" /\
        ev = add_tags (rd_pk r) TAG_NAME_OPINIONS) \/
       (pacer_doc_id r <> "" /\ task options <> "add_extra_tags" /\
        ev = apply_async_document (rd_pk r) TAG_NAME)).
Proof.
  induction rds as [|rd rest [IHf IHe]]; [split; [reflexivity|intros ev []]|].
  cbn [download_documents_rds]. unfold cmd_bind.
  destruct (download_documents_rds options rest) as [o t]. cbn [fst snd] in *.
  subst o.
  assert (Hrest : forall ev, In ev t -> exists r, In r (rd :: rest) /\ _) by
    (intros ev Hev; destruct (IHe ev Hev) as (r & Hr & Hc); exists r;
     split; [right; exact Hr|exact Hc]).
  destruct (String.eqb_spec (pacer_doc_id rd) "") as [Hp|Hp].
  - split; [reflexivity|]. intros ev [<-|Hev]; [|exact (Hrest ev Hev)].
    exists rd. split; [left; reflexivity|]. left. split; [exact Hp|reflexivity].
  - destruct (String.eqb_spec (task options) "add_extra_tags") as [Ht|Ht].
    + split; [reflexivity|]. intros ev [<-|Hev]; [|exact (Hrest ev Hev)].
      exists rd. split; [left; reflexivity|]. right. left. tauto.
    + split; [reflexivity|]. intros ev [<-|Hev]; [|exact (Hrest ev Hev)].
      exists rd. split; [left; reflexivity|]. right. right. tauto.
Qed.

Lemma download_documents_des_outcome (options : Options)
    (good_des : list DocketEntry) :
  fst (download_documents_des options good_des) = Returned tt /\
  forall ev, In ev (snd (download_documents_des options good_des)) ->
    exists de r, In de good_des /\ In r (recap_documents de) /\
      document_type r = PACER_DOCUMENT /\
      ((pacer_doc_id r = "" /\ ev = warn_unable_to_get_pacer_doc_id (rd_pk r)) \/
       (pacer_doc_id r <> "" /\ task options = "add_extra_tags" /\
        ev = add_tags (rd_pk r) TAG_NAME_OPINIONS) \/
       (pacer_doc_id r <> "" /\ task options <> "add_extra_tags" /\
        ev = apply_async_document (rd_pk r) TAG_NAME)).
Proof.
  induction good_des as [|de rest [IHf IHe]];
    [split; [reflexivity|intros ev []]|].
  cbn [download_documents_des]. unfold cmd_bind.
  destruct (download_documents_rds_outcome options
              (List.filter (fun rd => document_type rd =? PACER_DOCUMENT)
                 (recap_documents de))) as [Hf He].
  destruct (download_documents_rds options _) as [o t]. cbn [fst snd] in *.
  subst o.
  destruct (download_documents_des options rest) as [o' t']. cbn [fst snd] in *.
  subst o'. split; [reflexivity|].
  intros ev Hev. apply in_app_or in Hev. destruct Hev as [Hev|Hev].
  - destruct (He ev Hev) as (r & Hr & Hc).
    apply List.filter_In in Hr. destruct Hr as [Hr Ht]. apply Z.eqb_eq in Ht.
    exists de, r. split; [left; reflexivity|]. tauto.
  - destruct (IHe ev Hev) as (de' & r & Hde & Hc).
    exists de', r. split; [right; exact Hde|exact Hc].
Qed.

Lemma filter_des_returns_entries_of_input (des good_des : list DocketEntry) :
  fst (filter_des des) = Returned good_des ->
  forall de, In de good_des -> In de des.
Proof.
  intros H de Hin. unfold filter_des in H.
  destruct (first_unreadable des) as [e|] eqn:Hu.
  - rewrite (filter_des_loop_raises des [] e Hu) in H. discriminate H.
  - apply first_unreadable_none in Hu.
    pose proof (filter_des_resolvable des Hu) as Hf. unfold filter_des in Hf.
    rewrite Hf in H. injection H as <-.
    apply List.filter_In in Hin. tauto.
Qed.

Lemma good_des_are_filed_on_the_day (docket_entries0 : list DocketEntry)
    (document_date : date) (good_des : list DocketEntry) :
  fst (download_documents_good_des docket_entries0 document_date)
    = Returned (Some good_des) ->
  forall de, In de good_des ->
    In de (entries_filed_on docket_entries0 document_date).
Proof.
  unfold download_documents_good_des.
  fold (entries_filed_on docket_entries0 document_date).
  destruct (entries_filed_on docket_entries0 document_date) as [|a [|b l]] eqn:Hd.
  - discriminate.
  - cbn. intros H. injection H as <-. intros de Hin. exact Hin.
  - cbn [length Nat.eqb]. unfold bind.
    destruct (filter_des (a :: b :: l)) as [[good|e] t] eqn:Hf;
      cbn [fst ret]; [|discriminate].
    intros H. injection H as <-.
    apply filter_des_returns_entries_of_input. rewrite Hf. reflexivity.
Qed.

Lemma download_documents_window (options : Options) (rows : list SheetRow)
    (courts : list (string * Court)) (dockets : list Docket) :
  download_documents options rows courts dockets =
    run_rows (download_documents_row options courts dockets)
      (window options rows).
Proof.
  unfold download_documents, window, enumerate.
  apply for_rows_enumerate_from.
Qed.

Lemma in_map_core_not_acting (t : list event) (ev : command_event) (rd : Z) :
  In ev (map core t) -> ~ acts_on ev rd.
Proof.
  intros Hin (tag & [H|H]); subst ev;
    apply in_map_iff in Hin; destruct Hin as (x & Hx & _); discriminate.
Qed.

(** What one row of [download_documents] can act on. *)
Lemma download_documents_row_acts (options : Options)
    (courts : list (string * Court)) (dockets : list Docket)
    (i : Z) (row : SheetRow) (ev : command_event) (rd : Z) :
  In ev (snd (download_documents_row options courts dockets i row)) ->
  acts_on ev rd ->
  document_docket_number row <> "" /\
  exists r, document_of_row courts dockets row r /\ rd = rd_pk r /\
            pacer_doc_id r <> "" /\
            ((task options = "add_extra_tags" /\
              ev = add_tags rd TAG_NAME_OPINIONS) \/
             (task options <> "add_extra_tags" /\
              ev = apply_async_document rd TAG_NAME)).
Proof.
  unfold download_documents_row, document_of_row.
  fold (document_docket_number row). fold (court_of courts row).
  unfold cmd_bind, cmd_emit, cmd_call, cmd_core, cmd_ret, cmd_raise, call.
  intros Hin Hact.
  assert (Hinfo : ~ acts_on (info_doing_row i row) rd)
    by (intros (tag & [H|H]); discriminate).
  destruct (String.eqb_spec (document_docket_number row) "") as [Hn|Hn].
  { cbn [snd app] in Hin. destruct Hin as [<-|[<-|[]]]; [tauto|].
    destruct Hact as (tag & [H|H]); discriminate. }
  split; [exact Hn|].
  destruct (court_of courts row) as [c|e] eqn:Hc.
  2:{ cbn [snd app] in Hin. destruct Hin as [<-|[]]. tauto. }
  destruct (Docket_objects_get dockets (document_docket_number row) c)
    as [d|e] eqn:Hd.
  2:{ destruct e; cbn [snd app] in Hin;
        destruct Hin as [<-|Hin]; try tauto;
        try (destruct Hin as [<-|[]]; destruct Hact as (tag & [H|H]);
             discriminate);
        destruct Hin. }
  cbn [fst snd map] in Hin.
  destruct (strptime_mdY (Date (lookup_columns row))) as [document_date|e] eqn:Hs.
  2:{ cbn [snd app] in Hin. destruct Hin as [<-|[]]. tauto. }
  pose proof (good_des_are_filed_on_the_day (docket_entries d) document_date)
    as Hgood.
  destruct (download_documents_good_des (docket_entries d) document_date)
    as [[[good_des|]|e] t] eqn:Hg; cbn [fst snd app] in Hin, Hgood.
  - destruct (download_documents_des_outcome options good_des) as [_ Hev].
    destruct (download_documents_des options good_des) as [o t'].
    cbn [snd app] in Hin, Hev.
    destruct Hin as [<-|Hin]; [tauto|].
    apply in_app_or in Hin. destruct Hin as [Hin|Hin];
      [exfalso; exact (in_map_core_not_acting _ _ _ Hin Hact)|].
    destruct (Hev ev Hin) as (de & r & Hde & Hr & Ht & Hcases).
    destruct Hact as (tag & Hact).
    destruct Hcases as [[_ ->]|[(Hp & Htask & ->)|(Hp & Htask & ->)]].
    + destruct Hact; discriminate.
    + destruct Hact as [H|H]; [|discriminate]. injection H as Hrd _. subst rd.
      exists r.
      split; [|split; [reflexivity|split; [exact Hp|left; split;
                 [exact Htask|reflexivity]]]].
      exists c, d, document_date, de.
      repeat split; try assumption; try reflexivity.
      apply (Hgood good_des eq_refl), Hde.
    + destruct Hact as [H|H]; [discriminate|]. injection H as Hrd _. subst rd.
      exists r.
      split; [|split; [reflexivity|split; [exact Hp|right; split;
                 [exact Htask|reflexivity]]]].
      exists c, d, document_date, de.
      repeat split; try assumption; try reflexivity.
      apply (Hgood good_des eq_refl), Hde.
  - cbn [snd app] in Hin. destruct Hin as [<-|Hin]; [tauto|].
    rewrite app_nil_r in Hin.
    exfalso. exact (in_map_core_not_acting _ _ _ Hin Hact).
  - cbn [snd app] in Hin. destruct Hin as [<-|Hin]; [tauto|].
    exfalso. exact (in_map_core_not_acting _ _ _ Hin Hact).
Qed.

(** X16. Every document [download_documents] tags or queues for download is a
    primary document with a PACER document id, of a docket entry filed on
    the date of a row of the window, in the one docket with that row's
    docket number at that row's court. In the pass 'add_extra_tags' the
    documents are tagged with the opinions tag and nothing is queued; in
    the other pass they are queued with the tag of the project and nothing
    is tagged. *)
Theorem documents_acted_on_are_primary_documents_of_the_day
    (options : Options) (rows : list SheetRow) (courts : list (string * Court))
    (dockets : list Docket) (ev : command_event) (rd : Z) :
  In ev (snd (download_documents options rows courts dockets)) ->
  acts_on ev rd ->
  exists i row r,
    In (i, row) (window options rows) /\
    document_docket_number row <> "" /\
    document_of_row courts dockets row r /\
    rd = rd_pk r /\ pacer_doc_id r <> "" /\
    ((task options = "add_extra_tags" /\ ev = add_tags rd TAG_NAME_OPINIONS) \/
     (task options <> "add_extra_tags" /\ ev = apply_async_document rd TAG_NAME)).
Proof.
  rewrite download_documents_window. intros Hin Hact.
  destruct (run_rows_event _ _ _ Hin) as (i & row & Hw & Hev).
  destruct (download_documents_row_acts _ _ _ _ _ _ _ Hev Hact)
    as (Hn & r & Hdoc & Hrd & Hp & Hcases).
  exists i, row, r. tauto.
Qed.





(** ** [Command.handle] *)

(** X18. Every task of [allowed_tasks] makes [handle] run a pass: the lookup
    for 'lookup_in_idb', the docket download for 'download_dockets' and
    'download_student_dockets', the document pass for 'download_documents'
    and 'add_extra_tags'. Any other task makes it return at once, having
    done nothing and reported nothing. *)
Theorem handle_runs_exactly_the_allowed_tasks
    (options : Options) (rows : list SheetRow)
    (table : list FjcIntegratedDatabase) (courts : list (string * Court))
    (dockets : list Docket) :
  (In (task options) allowed_tasks ->
   (task options = "lookup_in_idb" /\
    handle options rows table courts dockets =
      update_csv_with_idb_lookups options rows table) \/
   ((task options = "download_dockets" \/
     task options = "download_student_dockets") /\
    handle options rows table courts dockets =
      download_dockets options rows courts) \/
   ((task options = "download_documents" \/
     task options = "add_extra_tags") /\
    handle options rows table courts dockets =
      download_documents options rows courts dockets)) /\
  (~ In (task options) allowed_tasks ->
   handle options rows table courts dockets = (Returned tt, [])).
Proof.
  unfold handle. split.
  - intros [H|[H|[H|[H|[H|[]]]]]]; rewrite <- H; cbn.
    + left. split; reflexivity.
    + right. left. split; [left|]; reflexivity.
    + right. left. split; [right|]; reflexivity.
    + right. right. split; [left|]; reflexivity.
    + right. right. split; [right|]; reflexivity.
  - intros H.
    destruct (String.eqb_spec (task options) "lookup_in_idb") as [E|_];
      [exfalso; apply H; rewrite E; simpl; tauto|].
    destruct (String.eqb_spec (task options) "download_dockets") as [E|_];
      [exfalso; apply H; rewrite E; simpl; tauto|].
    destruct (String.eqb_spec (task options) "download_student_dockets") as [E|_];
      [exfalso; apply H; rewrite E; simpl; tauto|].
    destruct (String.eqb_spec (task options) "download_documents") as [E|_];
      [exfalso; apply H; rewrite E; simpl; tauto|].
    destruct (String.eqb_spec (task options) "add_extra_tags") as [E|_];
      [exfalso; apply H; rewrite E; simpl; tauto|].
    reflexivity.
Qed.

(** ** The two passes of [download_dockets], and the empty [Q()] *)

Lemma filter_filter_and {A} (p q : A -> bool) (l : list A) :
  List.filter p (List.filter q l) = List.filter (fun x => q x && p x) l.
Proof.
  induction l as [|x l IH]; simpl; [reflexivity|].
  destruct (q x); simpl; [destruct (p x)|]; rewrite IH; reflexivity.
Qed.

Lemma filter_pointwise {A} (p q : A -> bool) (l : list A) :
  (forall x, p x = q x) -> List.filter p l = List.filter q l.
Proof.
  intros H. induction l as [|x l IH]; simpl; [reflexivity|].
  rewrite H, IH. reflexivity.
Qed.

(** X15. The pass 'download_student_dockets' is a part of the pass
    'download_dockets': when the courts of all rows the full pass downloads
    are found, the second pass returns too, and queues, in the same order,
    the downloads of the full pass that come from rows without an IDB
    docket number. *)
Theorem student_pass_is_part_of_the_full_pass
    (options : Options) (rows : list SheetRow) (courts : list (string * Court)) :
  let full := with_task "download_dockets" options in
  let second := with_task "download_student_dockets" options in
  (forall i row, In (i, row) (window options rows) ->
     wants_docket full row = true ->
     exists c, court_of courts row = Returned c) ->
  fst (download_dockets full rows courts) = Returned tt /\
  fst (download_dockets second rows courts) = Returned tt /\
  docket_jobs (snd (download_dockets second rows courts)) =
    flat_map (fun ir => docket_job_of courts (snd ir))
      (List.filter (fun ir => String.eqb (idb_docket_number (snd ir)) "")
         (List.filter (fun ir => wants_docket full (snd ir))
            (window options rows))) /\
  docket_jobs (snd (download_dockets full rows courts)) =
    flat_map (fun ir => docket_job_of courts (snd ir))
      (List.filter (fun ir => wants_docket full (snd ir))
         (window options rows)).
Proof.
  intros full second H.
  rewrite !download_dockets_window.
  change (window full rows) with (window options rows).
  change (window second rows) with (window options rows).
  assert (Himp : forall row, wants_docket second row = true ->
                             wants_docket full row = true).
  { intros row. unfold wants_docket, full, second. cbn [task with_task].
    destruct (String.eqb (idb_docket_number row) ""); cbn [negb];
      [tauto|discriminate]. }
  destruct (docket_jobs_of_rows full courts _ H) as [Hret Hjobs].
  destruct (docket_jobs_of_rows second courts (window options rows))
    as [Hret' Hjobs'].
  { intros i row Hin Hw. apply (H i row Hin), Himp, Hw. }
  rewrite (run_rows_returns _ _ Hret), (run_rows_returns _ _ Hret').
  cbn [fst snd]. split; [reflexivity|]. split; [reflexivity|].
  split; [|exact Hjobs].
  rewrite Hjobs', filter_filter_and. f_equal.
  apply filter_pointwise. intros [i row].
  unfold wants_docket, full, second. cbn [task with_task snd].
  destruct (String.eqb (idb_docket_number row) ""); cbn [negb];
    rewrite ?andb_true_r, ?andb_false_r; reflexivity.
Qed.

Lemma fold_or_nonempty (f : field) (abbrevs : list string) (q0 : Q) :
  Q_is_empty q0 = false ->
  Q_is_empty
    (fold_left (fun q abbrev => q_or q (Q_lookup f icontains abbrev))
       abbrevs q0) = false.
Proof.
  revert q0. induction abbrevs as [|v l IH]; intros q0 Hq0; simpl;
    [exact Hq0|].
  apply IH. unfold q_or. simpl. rewrite Hq0. reflexivity.
Qed.

Lemma fold_and_nonempty (word_q : string -> Q) (words : list string) (q0 : Q) :
  (forall w, Q_is_empty (word_q w) = false) ->
  Q_is_empty q0 = false ->
  Q_is_empty
    (fold_left (fun new_q word => q_and new_q (word_q word)) words q0) = false.
Proof.
  intros Hw. revert q0. induction words as [|w l IH]; intros q0 Hq0; simpl;
    [exact Hq0|].
  apply IH. unfold q_and. rewrite (Hw w), Hq0. reflexivity.
Qed.

(** X5. [make_party_q] returns the empty [Q()], which every row satisfies,
    exactly when the slice selects no word of the party; any word at all
    gives a predicate that is not empty. *)
Theorem make_party_q_is_empty_without_words
    (party : string) (f : field) (sl : slice) :
  (getslice (split party) sl = [] -> make_party_q party f sl = Q_empty) /\
  (getslice (split party) sl <> [] ->
   Q_is_empty (make_party_q party f sl) = false) /\
  (make_party_q party f sl = Q_empty ->
   forall other lookup_field other_slice r,
     filter_holds ([make_party_q party f sl;
                    make_party_q other lookup_field other_slice], []) r =
     Q_holds (make_party_q other lookup_field other_slice) r).
Proof.
  split; [|split].
  - unfold make_party_q. intros ->. reflexivity.
  - unfold make_party_q.
    destruct (getslice (split party) sl) as [|w l]; [congruence|]. intros _.
    cbn [fold_left].
    apply fold_and_nonempty.
    + intros w'.
      destruct (endswith w' "." && _); [|reflexivity].
      apply fold_or_nonempty. reflexivity.
    + unfold q_and.
      destruct (endswith w "." && _); [|reflexivity].
      rewrite fold_or_nonempty by reflexivity. cbn.
      apply fold_or_nonempty. reflexivity.
  - intros He other lookup_field other_slice r.
    unfold filter_holds. cbn [fst snd forallb]. rewrite He. cbn [Q_holds].
    rewrite !andb_true_r. reflexivity.
Qed.

End GSU.

(** ** The code on sample inputs *)

#[local] Abbreviation sample_lookup_row :=
  (lookup_row sample_abbreviations sample_CV_2017 sample_FEDERAL_BANKRUPTCY).
#[local] Abbreviation sample_orig_query :=
  (orig_query sample_CV_2017 sample_FEDERAL_BANKRUPTCY).
#[local] Abbreviation sample_filter_des := (filter_des sample_PACER_DOCUMENT).

Ltac by_computation := vm_compute; reflexivity.

Lemma sample_row_parses :
  row_parses (sample_row "John Smith v. Doe Corp") "john smith" "doe corp"
    day_2015_06_01 733925.
Proof. split; [|split]; by_computation. Qed.

(** C1. [lookup_row] on a case name with two separators and on one with
    none. With two, the text is cut at the first one, nothing is logged
    about the separator, and the table is queried (here with a match); with
    none, the warning logged is the one written for several separators. *)
Theorem separators_are_not_told_apart :
  count (lower "A v. B v. C") " v. " = 2%nat /\
  sample_lookup_row (sample_row "A v. B v. C")
    [sample_case 7 day_2014_03_01 "A" "B V. C"] =
    (Returned (Some (sample_case 7 day_2014_03_01 "A" "B V. C")),
     [query_count
        ([], [(F_plaintiff, iexact, "a"); (F_defendant, iexact, "b v. c")]) 1;
      logger_info
        (Got_one_result
           ([], [(F_plaintiff, iexact, "a"); (F_defendant, iexact, "b v. c")]));
      query_getitem
        ([], [(F_plaintiff, iexact, "a"); (F_defendant, iexact, "b v. c")]) 0]) /\
  count (lower "Smith against Jones") " v. " = 0%nat /\
  sample_lookup_row (sample_row "Smith against Jones")
    [sample_case 7 day_2014_03_01 "A" "B V. C"] =
    (Returned None, [logger_warn Got_multiple_v_in_the_case_name]).
Proof. repeat split; by_computation. Qed.

(** C2 fails as stated: the plaintiff 'john smith' has two words, fewer
    than the three the third stage asks for, and the third stage is the one
    that finds the row and decides the run. *)
Lemma short_stage_decides_counterexample :
  stage_asks_more_words 2 "john smith" "doe corp" /\
  row_parses (sample_row "John Smith v. Doe Corp") "john smith" "doe corp"
    day_2015_06_01 733925 /\
  nth_error (filter_tuples sample_abbreviations "john smith" "doe corp") 2 =
    Some sample_third_tuple /\
  fst (sample_lookup_row (sample_row "John Smith v. Doe Corp")
         [sample_case 1 day_2014_03_01 "SMITH, JOHN" "CORP DOE"]) =
    Returned (Some (sample_case 1 day_2014_03_01 "SMITH, JOHN" "CORP DOE")) /\
  stage_decides sample_third_tuple
    (snd (sample_lookup_row (sample_row "John Smith v. Doe Corp")
            [sample_case 1 day_2014_03_01 "SMITH, JOHN" "CORP DOE"])).
Proof.
  split; [left; vm_compute; lia|].
  split; [exact sample_row_parses|].
  split; [by_computation|].
  split; [by_computation|].
  exists 1%nat. split; [lia|]. vm_compute. tauto.
Qed.

Lemma short_party_stage_is_still_evaluated_witness :
  (length (split "john smith") < 3)%nat /\
  Q_holds
    (make_party_q sample_abbreviations "john smith" F_plaintiff
       {| start := None; stop := Some 3%nat |})
    (sample_case 1 day_2014_03_01 "SMITH, JOHN" "CORP DOE") =
  forallb
    (word_holds sample_abbreviations F_plaintiff
       (sample_case 1 day_2014_03_01 "SMITH, JOHN" "CORP DOE"))
    (split "john smith") /\
  (length (split "smith") < 2)%nat /\
  Q_holds
    (make_party_q sample_abbreviations "smith" F_plaintiff
       {| start := Some 1%nat; stop := Some 2%nat |})
    (sample_case 1 day_2014_03_01 "SMITH, JOHN" "CORP DOE") = true /\
  In (query_count sample_third_tuple 1)
    (snd (sample_lookup_row (sample_row "John Smith v. Doe Corp")
            [sample_case 1 day_2014_03_01 "SMITH, JOHN" "CORP DOE"])).
Proof.
  destruct (short_party_stage_is_still_evaluated sample_abbreviations
              sample_CV_2017 sample_FEDERAL_BANKRUPTCY) as [Hq Hrun].
  assert (H1 : (length (split "john smith") < 3)%nat) by (vm_compute; lia).
  assert (H2 : (length (split "smith") < 2)%nat) by (vm_compute; lia).
  split; [exact H1|].
  split; [exact (proj1 (Hq "john smith" F_plaintiff _) H1)|].
  split; [exact H2|].
  split; [exact (proj2 (proj2 (Hq "smith" F_plaintiff _)) H2)|].
  refine (proj2 (Hrun (sample_row "John Smith v. Doe Corp")
                   [sample_case 1 day_2014_03_01 "SMITH, JOHN" "CORP DOE"]
                   "john smith" "doe corp" day_2015_06_01 733925 2%nat
                   sample_third_tuple sample_row_parses _ _)).
  - vm_compute. reflexivity.
  - intros j ft Hj Hn. destruct j as [|[|j]]; [| |lia];
      injection Hn as <-; vm_compute; reflexivity.
Defined.

Lemma too_many_results_abandons_witness :
  fst (sample_lookup_row (sample_row "John Smith v. Doe Corp") sample_five_cases)
    = Returned None /\
  queries
    (snd (sample_lookup_row (sample_row "John Smith v. Doe Corp")
            sample_five_cases)) =
    [query_count sample_first_tuple 0;
     query_count
       ([], [(F_plaintiff, istartswith, "john smith");
             (F_defendant, istartswith, "doe corp")]) 0;
     query_count sample_third_tuple 5].
Proof.
  refine (too_many_results_abandons sample_abbreviations sample_CV_2017
            sample_FEDERAL_BANKRUPTCY (sample_row "John Smith v. Doe Corp")
            sample_five_cases "john smith" "doe corp" day_2015_06_01 733925
            2%nat sample_third_tuple sample_row_parses _ _ _).
  - vm_compute. reflexivity.
  - intros j ft Hj Hn. destruct j as [|[|j]]; [| |lia];
      injection Hn as <-; vm_compute; reflexivity.
  - vm_compute. lia.
Defined.


(** The row returned for the three sample cases is the one filed last. *)
Example three_candidates_most_recent :
  fst (sample_lookup_row (sample_row "John Smith v. Doe Corp") sample_three_cases)
  = Returned (Some (sample_case 2 day_2014_03_01 "JOHN SMITH" "DOE CORP")).
Proof. by_computation. Qed.

Lemma filter_des_keeps_entries_matching_a_rule_witness :
  sample_filter_des sample_entries =
    (Returned (List.filter (keeps sample_PACER_DOCUMENT) sample_entries), []) /\
  (forall de desc,
     description_text sample_PACER_DOCUMENT de = Some desc ->
     keeps sample_PACER_DOCUMENT de =
       existsb rule_matches (des_rules (split (lower desc))) /\
     keeps sample_PACER_DOCUMENT de = some_rule_holds (split (lower desc))).
Proof.
  apply (filter_des_keeps_entries_matching_a_rule sample_PACER_DOCUMENT
           sample_entries).
  repeat constructor; vm_compute; discriminate.
Defined.

(** The entries kept among the samples: the order, the entry read through
    its primary document, and the amended memorandum opinion. *)
Example sample_entries_kept :
  sample_filter_des sample_entries =
    (Returned
       [ sample_entry 1 "Order granting motion to dismiss" [];
         sample_entry 3 ""
           [sample_document 31 sample_PACER_DOCUMENT "Memorandum   Opinion";
            sample_document 32 2 "Exhibit A"];
         sample_entry 4 "Amended memorandum opinion and order" [] ],
     []).
Proof. by_computation. Qed.

Lemma make_party_q_ands_words_ors_expansions_witness :
  lookup_holds icontains "National Association of Realtors" "assn." = false /\
  Q_holds
    (make_party_q sample_abbreviations "assn." F_plaintiff
       {| start := None; stop := Some 1%nat |})
    (sample_case 1 day_2014_03_01 "National Association of Realtors" "Doe")
  = true.
Proof.
  split; [by_computation|].
  refine (proj2 (proj2 (make_party_q_ands_words_ors_expansions
                          sample_abbreviations "assn." F_plaintiff
                          {| start := None; stop := Some 1%nat |}
                          (sample_case 1 day_2014_03_01
                             "National Association of Realtors" "Doe")))
            "assn." "Assn." ["Association"] "Association" _ _ _ _ _).
  - vm_compute. reflexivity.
  - vm_compute. reflexivity.
  - vm_compute. reflexivity.
  - left. reflexivity.
  - vm_compute. reflexivity.
Defined.

(** C7 fails as stated: for the reference day 2015-06-01, a civil case of
    the row's court filed on 2010-06-01, five calendar years earlier to the
    day, is 1826 days back (2012 has a 29 February) and is not in the
    pool; the case filed the next day is, and is the only candidate. *)
Lemma five_calendar_years_counterexample :
  row_parses (sample_row "John Smith v. Doe Corp") "john smith" "doe corp"
    day_2015_06_01 733925 /\
  civil_in_forum sample_CV_2017 sample_FEDERAL_BANKRUPTCY
    (sample_row "John Smith v. Doe Corp")
    (sample_case 9 day_2010_06_01 "JOHN SMITH" "DOE CORP") /\
  in_five_year_window day_2015_06_01
    (date_filed (sample_case 9 day_2010_06_01 "JOHN SMITH" "DOE CORP")) /\
  sample_orig_query (sample_row "John Smith v. Doe Corp") day_2015_06_01 733925
    [sample_case 9 day_2010_06_01 "JOHN SMITH" "DOE CORP";
     sample_case 10 day_2010_06_02 "JOHN SMITH" "DOE CORP"] =
    [sample_case 10 day_2010_06_02 "JOHN SMITH" "DOE CORP"] /\
  ~ In (sample_case 9 day_2010_06_01 "JOHN SMITH" "DOE CORP")
      (sample_orig_query (sample_row "John Smith v. Doe Corp")
         day_2015_06_01 733925
         [sample_case 9 day_2010_06_01 "JOHN SMITH" "DOE CORP";
          sample_case 10 day_2010_06_02 "JOHN SMITH" "DOE CORP"]).
Proof.
  split; [exact sample_row_parses|].
  split.
  { split; [reflexivity|]. exists sample_court.
    split; [reflexivity|]. split; [reflexivity|]. discriminate. }
  split.
  { unfold in_five_year_window. split; apply Z.leb_le; by_computation. }
  split; [by_computation|].
  vm_compute. intros [H|[]]. discriminate H.
Qed.

Lemma candidate_pool_is_the_1825_day_window_witness :
  sample_lookup_row (sample_row "John Smith v. Doe Corp") sample_three_cases =
    lookup_loop
      (sample_orig_query (sample_row "John Smith v. Doe Corp")
         day_2015_06_01 733925 sample_three_cases)
      (filter_tuples sample_abbreviations "john smith" "doe corp") /\
  (forall r,
     In r (sample_orig_query (sample_row "John Smith v. Doe Corp")
             day_2015_06_01 733925 sample_three_cases) <->
     In r sample_three_cases /\
     civil_in_forum sample_CV_2017 sample_FEDERAL_BANKRUPTCY
       (sample_row "John Smith v. Doe Corp") r /\
     toordinal day_2015_06_01 - 1825 <= toordinal (date_filed r)
       <= toordinal day_2015_06_01) /\
  Permutation
    (sample_orig_query (sample_row "John Smith v. Doe Corp")
       day_2015_06_01 733925 sample_three_cases)
    (List.filter
       (orig_query_holds sample_CV_2017 sample_FEDERAL_BANKRUPTCY
          (AO_ID (sample_row "John Smith v. Doe Corp")) day_2015_06_01 733925)
       sample_three_cases) /\
  sorted_desc
    (sample_orig_query (sample_row "John Smith v. Doe Corp")
       day_2015_06_01 733925 sample_three_cases).
Proof.
  apply (candidate_pool_is_the_1825_day_window sample_abbreviations
           sample_CV_2017 sample_FEDERAL_BANKRUPTCY
           (sample_row "John Smith v. Doe Corp") sample_three_cases
           "john smith" "doe corp" day_2015_06_01 733925).
  split; [|split]; vm_compute; reflexivity.
Defined.

(** C5, where the code departs from it. Of two entries filed on the same
    day the first satisfies the first rule, so it is to be kept; the second
    has no description and no primary document. The lookup of the primary
    document (l.274) stands outside the [try] and raises [DoesNotExist]:
    [filter_des] returns no entries at all, and the first entry is lost. It
    is kept when it is judged next to an entry that can be read, and the
    same happens with [MultipleObjectsReturned] when the second entry has
    two primary documents. *)
Theorem filter_des_loses_the_matches_when_a_lookup_raises :
  let order := sample_entry 1 "Order granting motion to dismiss" [] in
  let bare := sample_entry 2 "" [] in
  let twice := sample_entry 3 ""
                 [sample_document 31 sample_PACER_DOCUMENT "Order";
                  sample_document 32 sample_PACER_DOCUMENT "Opinion"] in
  let letter := sample_entry 4 "Letter from counsel" [] in
  some_rule_holds (split (lower (description order))) = true /\
  keeps sample_PACER_DOCUMENT order = true /\
  sample_filter_des [order; letter] = (Returned [order], []) /\
  description_text sample_PACER_DOCUMENT bare = None /\
  sample_filter_des [order; bare] = (Raised DoesNotExist, []) /\
  sample_filter_des [bare; order] = (Raised DoesNotExist, []) /\
  description_text sample_PACER_DOCUMENT twice = None /\
  sample_filter_des [order; twice] = (Raised MultipleObjectsReturned, []).
Proof. cbv zeta. repeat split; by_computation. Qed.

(** C8 fails as stated: an entry without a description raises out of
    [filter_des] when it has no primary document, or two; entries that
    match no rule, or run out of words, are left out with nothing logged;
    and a row whose date is not in the month/day/year form raises out of
    [lookup_row]. *)
Lemma unresolved_items_raise_or_vanish_counterexample :
  sample_filter_des
    [sample_entry 1 "Order granting motion to dismiss" [];
     sample_entry 2 "" []] = (Raised DoesNotExist, []) /\
  sample_filter_des
    [sample_entry 1 "Order granting motion to dismiss" [];
     sample_entry 2 ""
       [sample_document 21 sample_PACER_DOCUMENT "Order";
        sample_document 22 sample_PACER_DOCUMENT "Opinion"]] =
    (Raised MultipleObjectsReturned, []) /\
  sample_filter_des
    [sample_entry 1 "Letter from counsel" [];
     sample_entry 2 "Amended memorandum" []] = (Returned [], []) /\
  sample_lookup_row
    {| Case_Name := "Smith v. Jones"; Date := "June 1, 2015"; AO_ID := "3" |}
    sample_three_cases = (Raised ValueError, []).
Proof. repeat split; by_computation. Qed.

Lemma readable_rows_and_entries_raise_nothing_witness :
  (exists res,
     fst (sample_lookup_row (sample_row "John Smith v. Doe Corp")
            sample_five_cases) = Returned res /\
     (res = None ->
      existsb is_warning
        (snd (sample_lookup_row (sample_row "John Smith v. Doe Corp")
                sample_five_cases)) = true)) /\
  sample_filter_des sample_entries =
    (Returned (List.filter (keeps sample_PACER_DOCUMENT) sample_entries), []).
Proof.
  destruct (readable_rows_and_entries_raise_nothing sample_abbreviations
              sample_CV_2017 sample_FEDERAL_BANKRUPTCY sample_PACER_DOCUMENT)
    as [Hrow Hdes].
  split.
  - apply Hrow. intros plaintiff defendant _.
    exists day_2015_06_01, 733925. split; vm_compute; reflexivity.
  - apply Hdes. repeat constructor; vm_compute; discriminate.
Defined.

Lemma single_entry_is_kept_unconditionally_witness :
  download_documents_good_des sample_PACER_DOCUMENT
    [sample_entry 2 "" []] day_2014_03_01 =
    (Returned (Some [sample_entry 2 "" []]), []) /\
  download_documents_good_des sample_PACER_DOCUMENT
    sample_entries day_2014_03_01 =
    (good_des <- sample_filter_des
                   (entries_filed_on sample_entries day_2014_03_01);
     ret (Some good_des)).
Proof.
  split.
  - apply (proj1 (single_entry_is_kept_unconditionally sample_PACER_DOCUMENT
                    [sample_entry 2 "" []] day_2014_03_01)).
    vm_compute. reflexivity.
  - apply (proj1 (proj2 (single_entry_is_kept_unconditionally
                           sample_PACER_DOCUMENT sample_entries
                           day_2014_03_01))).
    vm_compute. lia.
Defined.

Lemma ordered_with_trailing_space_is_never_a_word_witness :
  exists good_des,
    sample_filter_des sample_entries = (Returned good_des, []) /\
    forall de desc rest,
      description_text sample_PACER_DOCUMENT de = Some desc ->
      split (lower desc) = "ordered" :: rest ->
      ~ In de good_des.
Proof.
  apply (proj2 (proj2 (ordered_with_trailing_space_is_never_a_word
                         sample_PACER_DOCUMENT)) sample_entries).
  repeat constructor; vm_compute; discriminate.
Defined.

(** ** The passes on sample inputs *)

#[local] Abbreviation sample_update_csv :=
  (update_csv_with_idb_lookups sample_abbreviations sample_CV_2017
     sample_FEDERAL_BANKRUPTCY).
#[local] Abbreviation sample_download_dockets :=
  (download_dockets sample_FEDERAL_DISTRICT).
#[local] Abbreviation sample_download_documents :=
  (download_documents sample_PACER_DOCUMENT sample_FEDERAL_DISTRICT).
#[local] Abbreviation sample_annotation_of :=
  (annotation_of sample_abbreviations sample_CV_2017 sample_FEDERAL_BANKRUPTCY).

Lemma lookup_row_returns_a_pool_row_witness :
  exists plaintiff defendant opinion_date,
    unpack2 (split1 (lower "John Smith v. Doe Corp") " v. ")
      = Returned (plaintiff, defendant) /\
    strptime_mdY "06/01/2015" = Returned opinion_date /\
    In (sample_case 2 day_2014_03_01 "JOHN SMITH" "DOE CORP") sample_three_cases /\
    civil_in_forum sample_CV_2017 sample_FEDERAL_BANKRUPTCY
      (sample_row "John Smith v. Doe Corp")
      (sample_case 2 day_2014_03_01 "JOHN SMITH" "DOE CORP") /\
    toordinal opinion_date - 1825
      <= toordinal (date_filed (sample_case 2 day_2014_03_01 "JOHN SMITH" "DOE CORP"))
      <= toordinal opinion_date /\
    exists ft, In ft (filter_tuples sample_abbreviations plaintiff defendant) /\
               filter_holds ft
                 (sample_case 2 day_2014_03_01 "JOHN SMITH" "DOE CORP") = true.
Proof.
  apply (lookup_row_returns_a_pool_row sample_abbreviations sample_CV_2017
           sample_FEDERAL_BANKRUPTCY (sample_row "John Smith v. Doe Corp")
           sample_three_cases).
  vm_compute. reflexivity.
Defined.

Lemma lookup_row_all_stages_empty_witness :
  sample_lookup_row (sample_row "John Smith v. Doe Corp")
    [sample_case 1 day_2014_03_01 "ACME" "ROE"] =
    (Returned None,
     broadening (filter_tuples sample_abbreviations "john smith" "doe corp")) /\
  length
    (queries
       (snd (sample_lookup_row (sample_row "John Smith v. Doe Corp")
               [sample_case 1 day_2014_03_01 "ACME" "ROE"]))) = 5%nat.
Proof.
  apply (lookup_row_all_stages_empty sample_abbreviations sample_CV_2017
           sample_FEDERAL_BANKRUPTCY (sample_row "John Smith v. Doe Corp")
           [sample_case 1 day_2014_03_01 "ACME" "ROE"]
           "john smith" "doe corp" day_2015_06_01 733925 sample_row_parses).
  intros ft [<-|[<-|[<-|[<-|[<-|[]]]]]]; vm_compute; reflexivity.
Defined.

Lemma broader_stage_keeps_stricter_matches_witness :
  (length (qs_filter sample_three_cases sample_first_tuple) <=
   length (qs_filter sample_three_cases
             ([], [(F_plaintiff, istartswith, "john smith");
                   (F_defendant, istartswith, "doe corp")])))%nat /\
  (length (qs_filter sample_five_cases sample_third_tuple) <=
   length (qs_filter sample_five_cases
             ([Q_lookup F_defendant icontains "doe";
               Q_lookup F_plaintiff icontains "john"], [])))%nat.
Proof.
  split.
  - apply (broader_stage_keeps_stricter_matches sample_abbreviations
             "john smith" "doe corp" sample_three_cases
             sample_first_tuple
             ([], [(F_plaintiff, istartswith, "john smith");
                   (F_defendant, istartswith, "doe corp")])
             sample_third_tuple
             ([Q_lookup F_defendant icontains "doe";
               Q_lookup F_plaintiff icontains "john"], []));
      vm_compute; reflexivity.
  - apply (broader_stage_keeps_stricter_matches sample_abbreviations
             "john smith" "doe corp" sample_five_cases
             sample_first_tuple
             ([], [(F_plaintiff, istartswith, "john smith");
                   (F_defendant, istartswith, "doe corp")])
             sample_third_tuple
             ([Q_lookup F_defendant icontains "doe";
               Q_lookup F_plaintiff icontains "john"], []));
      vm_compute; reflexivity.
Defined.


Lemma keeps_reads_four_words_witness :
  keeps sample_PACER_DOCUMENT
    (sample_entry 1 "Amended memorandum opinion and order" []) =
  keeps sample_PACER_DOCUMENT
    (sample_entry 2 "AMENDED Memorandum Opinion   and judgment of the court" []).
Proof.
  apply (keeps_reads_four_words sample_PACER_DOCUMENT _ _
           "Amended memorandum opinion and order"
           "AMENDED Memorandum Opinion   and judgment of the court");
    vm_compute; reflexivity.
Defined.

Lemma filter_des_idempotent_witness :
  sublist
    [ sample_entry 1 "Order granting motion to dismiss" [];
      sample_entry 3 ""
        [sample_document 31 sample_PACER_DOCUMENT "Memorandum   Opinion";
         sample_document 32 2 "Exhibit A"];
      sample_entry 4 "Amended memorandum opinion and order" [] ]
    sample_entries /\
  sample_filter_des
    [ sample_entry 1 "Order granting motion to dismiss" [];
      sample_entry 3 ""
        [sample_document 31 sample_PACER_DOCUMENT "Memorandum   Opinion";
         sample_document 32 2 "Exhibit A"];
      sample_entry 4 "Amended memorandum opinion and order" [] ] =
    (Returned
       [ sample_entry 1 "Order granting motion to dismiss" [];
         sample_entry 3 ""
           [sample_document 31 sample_PACER_DOCUMENT "Memorandum   Opinion";
            sample_document 32 2 "Exhibit A"];
         sample_entry 4 "Amended memorandum opinion and order" [] ], []).
Proof.
  apply (filter_des_idempotent sample_PACER_DOCUMENT sample_entries).
  vm_compute. reflexivity.
Defined.

(** With offset 1 and limit 2 only the row of index 1 is handled: the
    limit is an index of the sheet, not a number of rows after the
    offset. *)
Example window_offset_1_limit_2 :
  map fst (window (sample_options 1 2 false "lookup_in_idb") sample_sheet) = [1].
Proof. by_computation. Qed.

Lemma update_csv_writes_the_window_witness :
  fst (sample_update_csv (sample_options 0 2 false "lookup_in_idb")
         sample_readable_sheet sample_three_cases) = Returned tt /\
  hd_error
    (snd (sample_update_csv (sample_options 0 2 false "lookup_in_idb")
            sample_readable_sheet sample_three_cases)) = Some writeheader /\
  written
    (snd (sample_update_csv (sample_options 0 2 false "lookup_in_idb")
            sample_readable_sheet sample_three_cases)) =
    map (fun ir => (snd ir, sample_annotation_of sample_three_cases (snd ir)))
      (window (sample_options 0 2 false "lookup_in_idb") sample_readable_sheet).
Proof.
  apply (update_csv_writes_the_window sample_abbreviations sample_CV_2017
           sample_FEDERAL_BANKRUPTCY (sample_options 0 2 false "lookup_in_idb")
           sample_readable_sheet sample_three_cases).
  intros i row [H|[H|[]]]; injection H as _ <-;
    (split; [eexists; vm_compute; reflexivity|right; reflexivity]).
Defined.

Lemma update_csv_stops_at_the_first_unreadable_row_witness :
  (fst (sample_update_csv (sample_options 0 0 false "lookup_in_idb")
          sample_sheet sample_three_cases) = Raised ValueError /\
   written
     (snd (sample_update_csv (sample_options 0 0 false "lookup_in_idb")
             sample_sheet sample_three_cases)) =
     [(sample_sheet_row "John Smith v. Doe Corp" "06/01/2015"
         "1012345" "" "1:10-cv-00001" "",
       sample_annotation_of sample_three_cases
         (sample_sheet_row "John Smith v. Doe Corp" "06/01/2015"
            "1012345" "" "1:10-cv-00001" ""))]) /\
  (fst (sample_update_csv (sample_options 0 0 false "lookup_in_idb")
          sample_long_sheet sample_three_cases) = Raised ValueError /\
   written
     (snd (sample_update_csv (sample_options 0 0 false "lookup_in_idb")
             sample_long_sheet sample_three_cases)) =
     [(sample_sheet_row "John Smith v. Doe Corp" "06/01/2015" "" "" "" "",
       sample_annotation_of sample_three_cases
         (sample_sheet_row "John Smith v. Doe Corp" "06/01/2015" "" "" "" ""))]).
Proof.
  split.
  - refine (let H := update_csv_stops_at_the_first_unreadable_row
                       sample_abbreviations sample_CV_2017
                       sample_FEDERAL_BANKRUPTCY
                       (sample_options 0 0 false "lookup_in_idb") sample_sheet
                       sample_three_cases
                       [(0, sample_sheet_row "John Smith v. Doe Corp"
                              "06/01/2015" "1012345" "" "1:10-cv-00001" "")]
                       [(2, sample_sheet_row "Nobody v. Noone" "03/01/2014"
                              "" "" "" "")]
                       1 (sample_sheet_row "Jane Roe v. Acme" "June 1, 2015"
                            "" "1:11-cv-00002" "" "") ValueError _ _ _
            in conj (proj1 H) (proj1 (proj2 H))).
    + vm_compute. reflexivity.
    + intros j row [H|[]]. injection H as _ <-.
      split; [eexists; vm_compute; reflexivity|right; reflexivity].
    + left. vm_compute. reflexivity.
  - refine (let H := update_csv_stops_at_the_first_unreadable_row
                       sample_abbreviations sample_CV_2017
                       sample_FEDERAL_BANKRUPTCY
                       (sample_options 0 0 false "lookup_in_idb")
                       sample_long_sheet sample_three_cases
                       [(0, sample_sheet_row "John Smith v. Doe Corp"
                              "06/01/2015" "" "" "" "")]
                       [(2, sample_sheet_row "Jane Roe v. Acme" "03/01/2014"
                              "" "" "" "")]
                       1 (sample_long_row "Nobody v. Noone" "03/01/2014")
                       ValueError _ _ _
            in conj (proj1 H) (proj1 (proj2 H))).
    + vm_compute. reflexivity.
    + intros j row [H|[]]. injection H as _ <-.
      split; [eexists; vm_compute; reflexivity|right; reflexivity].
    + right. split; [eexists; vm_compute; reflexivity|].
      split; [reflexivity|]. split; [discriminate|reflexivity].
Defined.

Lemma log_only_only_withholds_the_rows_witness :
  fst (sample_update_csv
         (with_log_only true (sample_options 0 0 false "lookup_in_idb"))
         sample_sheet sample_three_cases) =
  fst (sample_update_csv
         (with_log_only false (sample_options 0 0 false "lookup_in_idb"))
         sample_sheet sample_three_cases) /\
  snd (sample_update_csv
         (with_log_only true (sample_options 0 0 false "lookup_in_idb"))
         sample_sheet sample_three_cases) =
  List.filter (fun ev => negb (is_writerow ev))
    (snd (sample_update_csv
            (with_log_only false (sample_options 0 0 false "lookup_in_idb"))
            sample_sheet sample_three_cases)).
Proof.
  apply (proj1 (proj2 (log_only_only_withholds_the_rows sample_abbreviations
                         sample_CV_2017 sample_FEDERAL_BANKRUPTCY
                         (sample_options 0 0 false "lookup_in_idb")
                         sample_sheet sample_three_cases))).
  intros i row [H|[H|[H|[]]]]; injection H as _ <-; reflexivity.
Defined.

(** On a row that is too long the two runs part: without [log_only] the
    writer raises, with it the pass goes on to the end of the sheet. *)
Example long_row_raises_only_when_written :
  fst (sample_update_csv
         (with_log_only false (sample_options 0 0 false "lookup_in_idb"))
         sample_long_sheet sample_three_cases) = Raised ValueError /\
  fst (sample_update_csv
         (with_log_only true (sample_options 0 0 false "lookup_in_idb"))
         sample_long_sheet sample_three_cases) = Returned tt.
Proof. split; by_computation. Qed.

Lemma queued_dockets_come_from_rows_with_a_number_witness :
  exists i row c,
    In (i, row)
       (window (sample_options 0 0 false "download_dockets")
          sample_readable_sheet) /\
    "John Smith v. Doe Corp" = Case_Name (lookup_columns row) /\
    [TAG_NAME] = [TAG_NAME] /\
    In c sample_courts /\ "cand" = fst c /\
    fjc_court_id (snd c) = rjust (AO_ID (lookup_columns row)) 2 "0" /\
    jurisdiction (snd c) = sample_FEDERAL_DISTRICT /\
    "0012345" <> "" /\
    ((idb_docket_number row <> "" /\
      "0012345" = rjust (idb_docket_number row) 7 "0" /\
      (7 <= String.length "0012345")%nat /\
      task (sample_options 0 0 false "download_dockets")
        <> "download_student_dockets") \/
     (idb_docket_number row = "" /\ "0012345" = student_docket_number row)).
Proof.
  apply (queued_dockets_come_from_rows_with_a_number sample_FEDERAL_DISTRICT
           (sample_options 0 0 false "download_dockets")
           sample_readable_sheet sample_courts
           "0012345" "cand" "John Smith v. Doe Corp" [TAG_NAME]).
  vm_compute. tauto.
Defined.


(** The two passes over the sample sheet: the first queues the padded IDB
    number and the student's number, the second the student's number
    only. *)
Example sample_docket_jobs :
  docket_jobs
    (snd (sample_download_dockets (sample_options 0 0 false "download_dockets")
            sample_readable_sheet sample_courts)) =
    [("0012345", "cand", "John Smith v. Doe Corp");
     ("1:11-cv-00002", "cand", "Nobody v. Noone")] /\
  docket_jobs
    (snd (sample_download_dockets
            (sample_options 0 0 false "download_student_dockets")
            sample_readable_sheet sample_courts)) =
    [("1:11-cv-00002", "cand", "Nobody v. Noone")].
Proof. split; by_computation. Qed.

Lemma documents_acted_on_are_primary_documents_of_the_day_witness :
  exists i row r,
    In (i, row)
       (window (sample_options 0 0 false "download_documents")
          [sample_sheet_row "John Smith v. Doe Corp" "03/01/2014"
             "" "" "" "1:10-cv-00001"]) /\
    document_docket_number row <> "" /\
    document_of_row sample_PACER_DOCUMENT sample_FEDERAL_DISTRICT
      sample_courts sample_dockets row r /\
    11 = rd_pk r /\ pacer_doc_id r <> "" /\
    ((task (sample_options 0 0 false "download_documents") = "add_extra_tags" /\
      apply_async_document 11 TAG_NAME = add_tags 11 TAG_NAME_OPINIONS) \/
     (task (sample_options 0 0 false "download_documents") <> "add_extra_tags" /\
      apply_async_document 11 TAG_NAME = apply_async_document 11 TAG_NAME)).
Proof.
  apply (documents_acted_on_are_primary_documents_of_the_day
           sample_PACER_DOCUMENT sample_FEDERAL_DISTRICT
           (sample_options 0 0 false "download_documents")
           [sample_sheet_row "John Smith v. Doe Corp" "03/01/2014"
              "" "" "" "1:10-cv-00001"]
           sample_courts sample_dockets
           (apply_async_document 11 TAG_NAME) 11).
  - vm_compute. tauto.
  - exists TAG_NAME. right. reflexivity.
Defined.


(** A court that is not found makes the document pass raise, where a
    docket that is not found does not. *)
Example missing_court_raises :
  fst (sample_download_documents (sample_options 0 0 false "download_documents")
         [sample_sheet_row "Jane Roe v. Acme" "03/01/2014" "" ""
            "1:10-cv-00001" ""]
         [] sample_dockets) = Raised DoesNotExist.
Proof. by_computation. Qed.

Lemma handle_runs_exactly_the_allowed_tasks_witness :
  handle sample_abbreviations sample_CV_2017 sample_FEDERAL_BANKRUPTCY
    sample_PACER_DOCUMENT sample_FEDERAL_DISTRICT
    (sample_options 0 0 false "download_everything") sample_sheet
    sample_three_cases sample_courts sample_dockets = (Returned tt, []).
Proof.
  apply (proj2 (handle_runs_exactly_the_allowed_tasks sample_abbreviations
                  sample_CV_2017 sample_FEDERAL_BANKRUPTCY
                  sample_PACER_DOCUMENT sample_FEDERAL_DISTRICT
                  (sample_options 0 0 false "download_everything")
                  sample_sheet sample_three_cases sample_courts sample_dockets)).
  vm_compute. intros [H|[H|[H|[H|[H|[]]]]]]; discriminate H.
Defined.

Lemma student_pass_is_part_of_the_full_pass_witness :
  fst (sample_download_dockets
         (with_task "download_dockets" (sample_options 0 0 false "any"))
         sample_readable_sheet sample_courts) = Returned tt /\
  fst (sample_download_dockets
         (with_task "download_student_dockets" (sample_options 0 0 false "any"))
         sample_readable_sheet sample_courts) = Returned tt /\
  docket_jobs
    (snd (sample_download_dockets
            (with_task "download_student_dockets"
               (sample_options 0 0 false "any"))
            sample_readable_sheet sample_courts)) =
    flat_map
      (fun ir => docket_job_of sample_FEDERAL_DISTRICT sample_courts (snd ir))
      (List.filter (fun ir => String.eqb (idb_docket_number (snd ir)) "")
         (List.filter
            (fun ir =>
               wants_docket
                 (with_task "download_dockets" (sample_options 0 0 false "any"))
                 (snd ir))
            (window (sample_options 0 0 false "any") sample_readable_sheet))) /\
  docket_jobs
    (snd (sample_download_dockets
            (with_task "download_dockets" (sample_options 0 0 false "any"))
            sample_readable_sheet sample_courts)) =
    flat_map
      (fun ir => docket_job_of sample_FEDERAL_DISTRICT sample_courts (snd ir))
      (List.filter
         (fun ir =>
            wants_docket
              (with_task "download_dockets" (sample_options 0 0 false "any"))
              (snd ir))
         (window (sample_options 0 0 false "any") sample_readable_sheet)).
Proof.
  apply (student_pass_is_part_of_the_full_pass sample_FEDERAL_DISTRICT
           (sample_options 0 0 false "any") sample_readable_sheet sample_courts).
  intros i row [H|[H|[H|[]]]] Hw; injection H as _ <-;
    try discriminate Hw; eexists; vm_compute; reflexivity.
Defined.

Lemma make_party_q_is_empty_without_words_witness :
  make_party_q sample_abbreviations "smith" F_plaintiff
    {| start := Some 1%nat; stop := Some 2%nat |} = Q_empty /\
  Q_is_empty
    (make_party_q sample_abbreviations "smith assn." F_plaintiff
       {| start := Some 1%nat; stop := Some 2%nat |}) = false.
Proof.
  split.
  - apply (proj1 (make_party_q_is_empty_without_words sample_abbreviations
                    "smith" F_plaintiff
                    {| start := Some 1%nat; stop := Some 2%nat |})).
    vm_compute. reflexivity.
  - apply (proj1 (proj2 (make_party_q_is_empty_without_words
                           sample_abbreviations "smith assn." F_plaintiff
                           {| start := Some 1%nat; stop := Some 2%nat |}))).
    vm_compute. discriminate.
Defined.
